(** * The AutoGen marketing-strategy workflow

    A shallow embedding of [src/autogen/autogen_marketing_demo.py]: the class
    [MarketingStrategyWorkflow], its five phase methods, [run],
    [print_summary] and the [__main__] block.

    Conventions of the embedding.
    - A Python [str] is a [string] (a sequence of bytes, the UTF-8 encoding of
      the source text).  The only character-level operation of the program,
      [str.upper], is applied to dictionary keys, which are ASCII.
    - [self.outputs] is a Python [dict]; its insertion order is observable
      through [items()], so it is an association list with the dictionary
      discipline written out ([dict_setitem] keeps the position of a key that
      is already bound and appends a new key at the end).
    - The methods mutate [self] and talk to the console and to the generation
      service.  They live in a state-and-exception monad [M]: an exception does
      not roll the state back, exactly as a Python exception leaves the object
      and the console as they were when it was raised.
    - The modules [config] and [openai] are not part of the repository.  The
      configuration is a record of the four attributes the program reads; the
      generation service is an arbitrary state machine [create]. *)

From Stdlib Require Import String Ascii List ZArith Bool Lia PrimFloat.
Import ListNotations.

#[local] Set Warnings "-inexact-float".
#[local] Open Scope string_scope.

(** ** Python strings *)

(** [s * n] for a string [s] and a non-negative count [n]. *)
Fixpoint str_mul (s : string) (n : nat) : string :=
  match n with
  | O => ""
  | S n' => s ++ str_mul s n'
  end.

(** [c.upper()] on one ASCII character. *)
Definition ascii_upper (c : ascii) : ascii :=
  let n := nat_of_ascii c in
  if andb (Nat.leb 97 n) (Nat.leb n 122) then ascii_of_nat (n - 32) else c.

(** [s.upper()], on ASCII text. *)
Fixpoint upper (s : string) : string :=
  match s with
  | EmptyString => EmptyString
  | String c s' => String (ascii_upper c) (upper s')
  end.

(** [sub in s]: [sub] occurs in [s] as a contiguous run of characters. *)
Definition contains (s sub : string) : Prop :=
  exists pre post : string, s = pre ++ sub ++ post.

(** ** Python dictionaries with string keys *)

Definition dict (V : Type) : Type := list (string * V).

(** [d[k]], [None] standing for the [KeyError]. *)
Fixpoint dict_getitem {V : Type} (d : dict V) (k : string) : option V :=
  match d with
  | [] => None
  | (k', v) :: d' => if String.eqb k' k then Some v else dict_getitem d' k
  end.

(** [d[k] = v]: a bound key keeps its place, a new key goes last. *)
Fixpoint dict_setitem {V : Type} (d : dict V) (k : string) (v : V) : dict V :=
  match d with
  | [] => [(k, v)]
  | (k', v') :: d' =>
      if String.eqb k' k then (k', v) :: d' else (k', v') :: dict_setitem d' k v
  end.

(** [list(d.keys())] *)
Definition keys {V : Type} (d : dict V) : list string := map fst d.

(** [list(d.items())] *)
Definition items {V : Type} (d : dict V) : list (string * V) := d.

(** ** Exceptions and outcomes *)

Inductive PyExc : Type :=
| SystemExit (code : Z)        (* raised by [exit(code)] *)
| KeyError (key : string)      (* a missing dictionary key *)
| IndexError                   (* [choices[0]] on an empty list *)
| OtherError (name : string).  (* whatever the service raises *)

Inductive Outcome (A : Type) : Type :=
| Return (a : A)
| Raise (e : PyExc).

Arguments Return {A} a.
Arguments Raise {A} e.

(** ** The generation service boundary *)

(** One entry of the [messages] argument: [{"role": ..., "content": ...}]. *)
Record Message : Type := mkMessage { role : string; content : string }.

(** The keyword arguments of [client.chat.completions.create]. *)
Module Request.

Record t : Type := mk {
  model : string;
  temperature : float;
  max_tokens : Z;
  messages : list Message
}.

End Request.

(** What the program reads of a response: [response.choices[i].message.content]. *)
Record Choice : Type := mkChoice { message : Message }.
Record ChatCompletion : Type := mkChatCompletion { choices : list Choice }.

(** A response with one choice whose text is [text]. *)
Definition completion (text : string) : ChatCompletion :=
  mkChatCompletion [mkChoice (mkMessage "assistant" text)].

(** [OpenAI(api_key=..., base_url=...)]: the client is the pair of its two
    arguments; building it sends nothing. *)
Record OpenAI : Type := mkOpenAI { api_key : string; base_url : string }.

(** The attributes of [config.Config] that the program reads;
    [validate_setup] is the result of the call [Config.validate_setup()]. *)
Record Config : Type := mkConfig {
  validate_setup : bool;
  API_KEY : string;
  API_BASE : string;
  OPENAI_MODEL : string
}.

(** ** Two test doubles for the service *)

(** A scripted service: the k-th call gets the k-th entry of the script,
    whatever the request; an exhausted script raises. *)
Definition scripted_create (_ : OpenAI) (script : list (Outcome ChatCompletion))
    (_ : Request.t) : list (Outcome ChatCompletion) * Outcome ChatCompletion :=
  match script with
  | [] => ([], Raise (OtherError "StopIteration"))
  | r :: script' => (script', r)
  end.

(** A service whose answer is a function of the client and the request
    alone; its state counts the calls. *)
Definition pure_create (f : OpenAI -> Request.t -> Outcome ChatCompletion) (c : OpenAI)
    (n : nat) (req : Request.t) : nat * Outcome ChatCompletion :=
  (S n, f c req).

(** ** The state-and-exception monad *)

Definition M (S A : Type) : Type := S -> Outcome A * S.

Definition ret {S A : Type} (a : A) : M S A := fun s => (Return a, s).

Definition raise {S A : Type} (e : PyExc) : M S A := fun s => (Raise e, s).

Definition bind {S A B : Type} (m : M S A) (k : A -> M S B) : M S B :=
  fun s =>
    match m s with
    | (Return a, s') => k a s'
    | (Raise e, s') => (Raise e, s')
    end.

Declare Scope py_scope.
Delimit Scope py_scope with py.
Notation "x <- m ;; k" := (bind m (fun x => k))
  (at level 61, m at next level, right associativity) : py_scope.
Notation "m ;; k" := (bind m (fun _ => k))
  (at level 61, right associativity) : py_scope.
#[local] Open Scope py_scope.

(** [for x in xs: body(x)] *)
Fixpoint for_each {S A : Type} (xs : list A) (body : A -> M S unit) : M S unit :=
  match xs with
  | [] => ret tt
  | x :: xs' => body x ;; for_each xs' body
  end.

(** [response.choices[0].message.content]; an empty [choices] raises. *)
Definition first_choice_content {S : Type} (response : ChatCompletion) : M S string :=
  match choices response with
  | [] => raise IndexError
  | c :: _ => ret (content (message c))
  end.

(** ** The prompts *)

(** The f-string [system_prompt] of [phase_market_research]. *)
Definition system_prompt_market_research (product_name : string) : string :=
  "
You are a senior market research analyst.
Analyze the wearable technology market for the product: " ++ product_name ++ ".

Provide:
- Top 3 competitors
- Their positioning
- Pricing
- Key features
- Market trends
Limit to 150–200 words.
".

Definition user_prompt_market_research : string := "Provide competitor analysis.".

(** The [system_prompt] of [phase_customer_analysis]: an f-string with no field. *)
Definition system_prompt_customer_analysis : string :=
  "
You are a consumer behavior expert.
Based on the market research, identify:

- Target customer segments
- User pain points
- Motivations
- Purchase triggers
- Unmet needs

Limit to 150 words.
".

(** The [user_prompt] of [phase_customer_analysis], as a function of the value
    read from [self.outputs['market_research']]. *)
Definition user_prompt_customer_analysis (market_research : string) : string :=
  "Here is the market research:
" ++ market_research ++ "

Analyze customers.".

Definition system_prompt_strategy (product_name : string) : string :=
  "
You are a marketing strategist.
Create a marketing strategy for: " ++ product_name ++ "

Include:
- Positioning statement
- Value proposition
- Key messaging pillars
- Channels to target
- Pricing strategy
- Brand voice direction

Limit to 200 words.
".

Definition user_prompt_strategy (market_research customer_analysis : string) : string :=
  "
Market Research:
" ++ market_research ++ "

Customer Insights:
" ++ customer_analysis ++ "
".

Definition system_prompt_campaigns : string :=
  "
You are a creative campaign director.
Design 3 marketing campaigns:

1. Digital campaign
2. Influencer campaign
3. Content/SEO campaign

Include:
- Goal
- Target channels
- Creative concept
- KPIs
Keep each campaign short and crisp.
".

Definition user_prompt_campaigns (strategy : string) : string :=
  "
Based on the marketing strategy:

" ++ strategy ++ "

Generate the 3 campaigns.
".

Definition system_prompt_quality : string :=
  "
You are a quality editor. Improve clarity, flow, and formatting.
Combine all sections into a polished executive summary.
Max 250 words.
".

Definition user_prompt_quality
    (market_research customer_analysis strategy campaigns : string) : string :=
  "
Market Research:
" ++ market_research ++ "

Customer Insights:
" ++ customer_analysis ++ "

Marketing Strategy:
" ++ strategy ++ "

Campaigns:
" ++ campaigns ++ "
".

(** [messages=[{"role": "system", ...}, {"role": "user", ...}]] *)
Definition system_user (system_prompt user_prompt : string) : list Message :=
  [mkMessage "system" system_prompt; mkMessage "user" user_prompt].

(** ** The requests

    The keyword arguments that each phase passes to
    [self.client.chat.completions.create], as functions of [self.model],
    [self.product_name] and the entries of [self.outputs] that the phase
    reads. *)

Definition request_market_research (model product_name : string) : Request.t :=
  Request.mk model 0.7 500
    (system_user (system_prompt_market_research product_name) user_prompt_market_research).

Definition request_customer_analysis (model market_research : string) : Request.t :=
  Request.mk model 0.7 400
    (system_user system_prompt_customer_analysis
       (user_prompt_customer_analysis market_research)).

Definition request_strategy (model product_name market_research customer_analysis : string)
    : Request.t :=
  Request.mk model 0.7 500
    (system_user (system_prompt_strategy product_name)
       (user_prompt_strategy market_research customer_analysis)).

Definition request_campaigns (model strategy : string) : Request.t :=
  Request.mk model 0.7 500
    (system_user system_prompt_campaigns (user_prompt_campaigns strategy)).

Definition request_quality
    (model market_research customer_analysis strategy campaigns : string) : Request.t :=
  Request.mk model 0.5 500
    (system_user system_prompt_quality
       (user_prompt_quality market_research customer_analysis strategy campaigns)).

(** ** The workflow *)

Section Workflow.

(** The generation service: [create c s req] is what
    [c.chat.completions.create] called with the keyword arguments [req] does when the service is in state [s],
    the new state and either a response or an exception. *)
Variable SvcState : Type.
Variable create : OpenAI -> SvcState -> Request.t -> SvcState * Outcome ChatCompletion.

(** The class [Config] of the module [config]. *)
Variable config : Config.

(** Everything outside the workflow object: the console (one entry per
    [print] call, its argument), the requests received by the service so far,
    the state of the service, and what [datetime.now()] formats to. *)
Record World : Type := mkWorld {
  stdout : list string;
  calls : list Request.t;
  service : SvcState;
  clock : string
}.

(** The attributes of a [MarketingStrategyWorkflow] instance. *)
Record MarketingStrategyWorkflow : Type := mkWorkflow {
  client : OpenAI;
  outputs : dict string;
  model : string;
  product_name : string
}.

(** A method runs on an instance in a world. *)
Record State : Type := mkState {
  self : MarketingStrategyWorkflow;
  world : World
}.

(** [print(s)] *)
Definition print_world (s : string) : M World unit :=
  fun w => (Return tt, mkWorld (stdout w ++ [s]) (calls w) (service w) (clock w)).

(** [str(datetime.now())] *)
Definition datetime_now : M World string :=
  fun w => (Return (clock w), w).

(** [c.chat.completions.create(...)]: the request reaches the service, which
    answers or raises. *)
Definition chat_completions_create (c : OpenAI) (req : Request.t) : M World ChatCompletion :=
  fun w =>
    let (s', r) := create c (service w) req in
    (r, mkWorld (stdout w) (calls w ++ [req]) s' (clock w)).

(** A computation on the world, run from inside a method. *)
Definition in_world {A : Type} (m : M World A) : M State A :=
  fun st => let (r, w') := m (world st) in (r, mkState (self st) w').

Definition print (s : string) : M State unit := in_world (print_world s).

Definition get_self : M State MarketingStrategyWorkflow :=
  fun st => (Return (self st), st).

(** [self.outputs[k]] *)
Definition outputs_getitem (k : string) : M State string :=
  fun st =>
    match dict_getitem (outputs (self st)) k with
    | Some v => (Return v, st)
    | None => (Raise (KeyError k), st)
    end.

(** [self.outputs[k] = v] *)
Definition outputs_setitem (k v : string) : M State unit :=
  fun st =>
    let o := self st in
    (Return tt,
     mkState (mkWorkflow (client o) (dict_setitem (outputs o) k v) (model o) (product_name o))
             (world st)).

(** [__init__]: [None] is the call without a [product_name] argument. *)
Definition init (product_name_arg : option string) : M World MarketingStrategyWorkflow :=
  let product_name :=
    match product_name_arg with
    | Some p => p
    | None => "SmartHealth Fitness Band"
    end in
  (if negb (validate_setup config)
   then print_world "ERROR: Configuration validation failed!" ;; raise (SystemExit 1)
   else ret tt) ;;
  ret (mkWorkflow (mkOpenAI (API_KEY config) (API_BASE config)) [] (OPENAI_MODEL config)
         product_name).

Definition phase_market_research : M State unit :=
  print ("
" ++ str_mul "=" 80) ;;
  print "PHASE 1: MARKET RESEARCH" ;;
  print (str_mul "=" 80) ;;
  o <- get_self ;;
  response <- in_world (chat_completions_create (client o)
    (request_market_research (model o) (product_name o))) ;;
  text <- first_choice_content response ;;
  outputs_setitem "market_research" text ;;
  v <- outputs_getitem "market_research" ;;
  print v.

Definition phase_customer_analysis : M State unit :=
  print ("
" ++ str_mul "=" 80) ;;
  print "PHASE 2: CUSTOMER INSIGHTS" ;;
  print (str_mul "=" 80) ;;
  o <- get_self ;;
  market_research <- outputs_getitem "market_research" ;;
  response <- in_world (chat_completions_create (client o)
    (request_customer_analysis (model o) market_research)) ;;
  text <- first_choice_content response ;;
  outputs_setitem "customer_analysis" text ;;
  v <- outputs_getitem "customer_analysis" ;;
  print v.

Definition phase_strategy : M State unit :=
  print ("
" ++ str_mul "=" 80) ;;
  print "PHASE 3: MARKETING STRATEGY" ;;
  print (str_mul "=" 80) ;;
  o <- get_self ;;
  market_research <- outputs_getitem "market_research" ;;
  customer_analysis <- outputs_getitem "customer_analysis" ;;
  response <- in_world (chat_completions_create (client o)
    (request_strategy (model o) (product_name o) market_research customer_analysis)) ;;
  text <- first_choice_content response ;;
  outputs_setitem "strategy" text ;;
  v <- outputs_getitem "strategy" ;;
  print v.

Definition phase_campaigns : M State unit :=
  print ("
" ++ str_mul "=" 80) ;;
  print "PHASE 4: CAMPAIGN DESIGN" ;;
  print (str_mul "=" 80) ;;
  o <- get_self ;;
  strategy <- outputs_getitem "strategy" ;;
  response <- in_world (chat_completions_create (client o)
    (request_campaigns (model o) strategy)) ;;
  text <- first_choice_content response ;;
  outputs_setitem "campaigns" text ;;
  v <- outputs_getitem "campaigns" ;;
  print v.

Definition phase_quality : M State unit :=
  print ("
" ++ str_mul "=" 80) ;;
  print "PHASE 5: QUALITY REVIEW" ;;
  print (str_mul "=" 80) ;;
  o <- get_self ;;
  market_research <- outputs_getitem "market_research" ;;
  customer_analysis <- outputs_getitem "customer_analysis" ;;
  strategy <- outputs_getitem "strategy" ;;
  campaigns <- outputs_getitem "campaigns" ;;
  response <- in_world (chat_completions_create (client o)
    (request_quality (model o) market_research customer_analysis strategy campaigns)) ;;
  text <- first_choice_content response ;;
  outputs_setitem "quality" text ;;
  v <- outputs_getitem "quality" ;;
  print v.

(** The two [print] calls of the loop body of [print_summary]. *)
Definition print_entry (kv : string * string) : M State unit :=
  print ("
--- " ++ upper (fst kv) ++ " ---
") ;;
  print (snd kv).

Definition print_summary : M State unit :=
  print ("
" ++ str_mul "=" 80) ;;
  print "FINAL SUMMARY — MARKETING STRATEGY" ;;
  print (str_mul "=" 80) ;;
  o <- get_self ;;
  for_each (items (outputs o)) print_entry.

Definition run : M State unit :=
  print ("
" ++ str_mul "=" 80) ;;
  print "AUTOGEN MARKETING STRATEGY WORKFLOW" ;;
  print (str_mul "=" 80) ;;
  o <- get_self ;;
  print ("Product: " ++ product_name o) ;;
  print ("Model: " ++ model o) ;;
  now <- in_world datetime_now ;;
  print ("Start Time: " ++ now ++ "
") ;;
  phase_market_research ;;
  phase_customer_analysis ;;
  phase_strategy ;;
  phase_campaigns ;;
  phase_quality ;;
  print_summary.

(** [workflow = MarketingStrategyWorkflow(...); workflow.run()]: the outcome,
    the instance if the constructor returned one, and the world at the end. *)
Definition construct_and_run (product_name_arg : option string) (w : World)
    : Outcome unit * option MarketingStrategyWorkflow * World :=
  match init product_name_arg w with
  | (Raise e, w') => (Raise e, None, w')
  | (Return o, w') =>
      let (r, st) := run (mkState o w') in (r, Some (self st), world st)
  end.

(** The [__main__] block. *)
Definition main : World -> Outcome unit * option MarketingStrategyWorkflow * World :=
  construct_and_run (Some "SmartHealth Fitness Band").

End Workflow.

Arguments mkWorld {SvcState} stdout calls service clock.
Arguments stdout {SvcState} w.
Arguments calls {SvcState} w.
Arguments service {SvcState} w.
Arguments clock {SvcState} w.
Arguments mkState {SvcState} self world.
Arguments self {SvcState} s.
Arguments world {SvcState} s.
Arguments print_world {SvcState} s _.
Arguments datetime_now {SvcState} _.
Arguments chat_completions_create {SvcState} create c req _.
Arguments in_world {SvcState A} m _.
Arguments print {SvcState} s _.
Arguments get_self {SvcState} _.
Arguments outputs_getitem {SvcState} k _.
Arguments outputs_setitem {SvcState} k v _.
Arguments init {SvcState} config product_name_arg _.
Arguments phase_market_research {SvcState} create _.
Arguments phase_customer_analysis {SvcState} create _.
Arguments phase_strategy {SvcState} create _.
Arguments phase_campaigns {SvcState} create _.
Arguments phase_quality {SvcState} create _.
Arguments print_entry {SvcState} kv _.
Arguments print_summary {SvcState} _.
Arguments run {SvcState} create _.
Arguments construct_and_run {SvcState} create config product_name_arg w.
Arguments main {SvcState} create config _.

(** ** Vocabulary for the statements *)

(** The keys of [self.outputs], in the order in which [run] calls the phases. *)
Definition phase_keys : list string :=
  ["market_research"; "customer_analysis"; "strategy"; "campaigns"; "quality"].

(** The text that a phase stores when it receives [r], if [r] has a choice. *)
Definition response_text (r : ChatCompletion) : option string :=
  match choices r with
  | [] => None
  | c :: _ => Some (content (message c))
  end.

(** The five requests of a run in which the first four phases stored
    [R1], [R2], [R3] and [R4]. *)
Definition requests (model product_name R1 R2 R3 R4 : string) : list Request.t :=
  [request_market_research model product_name;
   request_customer_analysis model R1;
   request_strategy model product_name R1 R2;
   request_campaigns model R3;
   request_quality model R1 R2 R3 R4].

(** The generation parameters of the five phases. *)
Definition phase_parameters : list (float * Z) :=
  [(0.7%float, 500%Z); (0.7%float, 400%Z); (0.7%float, 500%Z); (0.7%float, 500%Z);
   (0.5%float, 500%Z)].

Definition parameters_of (req : Request.t) : float * Z :=
  (Request.temperature req, Request.max_tokens req).

(** The content of the first message of a request when its role is "system". *)
Definition system_prompt_of (req : Request.t) : option string :=
  match Request.messages req with
  | m :: _ => if String.eqb (role m) "system" then Some (content m) else None
  | [] => None
  end.

(** The content of the second message of a request when its role is "user". *)
Definition user_prompt_of (req : Request.t) : option string :=
  match Request.messages req with
  | _ :: m :: _ => if String.eqb (role m) "user" then Some (content m) else None
  | _ => None
  end.

(** A request carries exactly a system message followed by a user message. *)
Definition system_then_user (req : Request.t) : Prop :=
  exists system_prompt user_prompt,
    Request.messages req = [mkMessage "system" system_prompt; mkMessage "user" user_prompt].

(** The user prompts of the five phases when the texts stored so far, in
    phase order, are [texts]. *)
Definition user_prompts (texts : list string) : list string :=
  [user_prompt_market_research;
   user_prompt_customer_analysis (nth 0 texts "");
   user_prompt_strategy (nth 0 texts "") (nth 1 texts "");
   user_prompt_campaigns (nth 2 texts "");
   user_prompt_quality (nth 0 texts "") (nth 1 texts "") (nth 2 texts "") (nth 3 texts "")].

(** For each phase, the phases (counted from 0) whose outputs its user
    prompt reads. *)
Definition dependencies : list (list nat) :=
  [[]; [0]; [0; 1]; [2]; [0; 1; 2; 3]]%nat.

(** The system prompts of the five phases for a product name. *)
Definition system_prompts (product_name : string) : list string :=
  [system_prompt_market_research product_name;
   system_prompt_customer_analysis;
   system_prompt_strategy product_name;
   system_prompt_campaigns;
   system_prompt_quality].

(** The three [print] calls that open a phase, the summary and the run. *)
Definition header (title : string) : list string :=
  ["
" ++ str_mul "=" 80; title; str_mul "=" 80].

(** What [run] prints before the first phase. *)
Definition banner (product_name model now : string) : list string :=
  header "AUTOGEN MARKETING STRATEGY WORKFLOW" ++
  ["Product: " ++ product_name; "Model: " ++ model; "Start Time: " ++ now ++ "
"].

(** What the loop of [print_summary] prints for the dictionary [d]. *)
Definition summary_entries (d : dict string) : list string :=
  flat_map (fun kv => ["
--- " ++ upper (fst kv) ++ " ---
"; snd kv]) (items d).

Definition summary_lines (d : dict string) : list string :=
  header "FINAL SUMMARY — MARKETING STRATEGY" ++ summary_entries d.

(** [with_outputs o d] is the instance [o] after [o.outputs] became [d]. *)
Definition with_outputs (o : MarketingStrategyWorkflow) (d : dict string)
    : MarketingStrategyWorkflow :=
  mkWorkflow (client o) d (model o) (product_name o).

(** The keys of [self.outputs] that each phase reads to build its user
    prompt, in the order in which it reads them. *)
Definition phase_reads : list (list string) :=
  [[];
   ["market_research"];
   ["market_research"; "customer_analysis"];
   ["strategy"];
   ["market_research"; "customer_analysis"; "strategy"; "campaigns"]].

(** The titles that the phases print in their headers. *)
Definition phase_titles : list string :=
  ["PHASE 1: MARKET RESEARCH"; "PHASE 2: CUSTOMER INSIGHTS"; "PHASE 3: MARKETING STRATEGY";
   "PHASE 4: CAMPAIGN DESIGN"; "PHASE 5: QUALITY REVIEW"].

(** The first key of [ks] that [d] does not bind. *)
Definition first_missing (d : dict string) (ks : list string) : option string :=
  find (fun k => match dict_getitem d k with Some _ => false | None => true end) ks.

(** [d] after the assignments [d[k] = v] for the pairs [(k, v)] of [kvs], in
    order. *)
Definition store_all (d : dict string) (kvs : list (string * string)) : dict string :=
  fold_left (fun d' kv => dict_setitem d' (fst kv) (snd kv)) kvs d.

Section Traces.

Context {SvcState : Type}.
Variable create : OpenAI -> SvcState -> Request.t -> SvcState * Outcome ChatCompletion.

(** Starting in state [s], the service answers the requests [reqs], one after
    the other, with responses whose texts are [texts], and ends in [s_end]. *)
Fixpoint service_returns (c : OpenAI) (s : SvcState) (reqs : list Request.t)
    (texts : list string) (s_end : SvcState) : Prop :=
  match reqs, texts with
  | [], [] => s_end = s
  | req :: reqs', t :: texts' =>
      exists s' resp,
        create c s req = (s', Return resp) /\ response_text resp = Some t /\
        service_returns c s' reqs' texts' s_end
  | _, _ => False
  end.

(** The service answers as a function [f] of the client and the request,
    whatever its state. *)
Definition deterministic (f : OpenAI -> Request.t -> Outcome ChatCompletion) : Prop :=
  forall c s req, snd (create c s req) = f c req.

(** [sends P m]: whatever the state, the requests that [m] adds to the log
    all satisfy [P], and [m] removes none. *)
Definition sends (P : Request.t -> Prop) {A : Type} (m : M (State SvcState) A)
    : Prop :=
  forall st, exists sent,
    calls (world (snd (m st))) = (calls (world st) ++ sent)%list /\ Forall P sent.

(** [world_independent m]: the outcome of [m] and what it does to the
    instance are the same in any two states with the same instance, whatever
    the console, the request log, the clock and the state of the service. *)
Definition world_independent {A : Type} (m : M (State SvcState) A) : Prop :=
  forall st1 st2,
    self st1 = self st2 ->
    fst (m st1) = fst (m st2) /\ self (snd (m st1)) = self (snd (m st2)).

(** A phase, seen from outside: the header is printed; if building the
    request raised, nothing else happens; otherwise the service is called
    once, and only a response with a choice is stored under [key] and
    printed. *)
Definition phase_result (title key : string) (req : Outcome Request.t)
    (st : State SvcState) : Outcome unit * State SvcState :=
  let o := self st in
  let w := world st in
  let out := (stdout w ++ header title)%list in
  match req with
  | Raise e => (Raise e, mkState o (mkWorld out (calls w) (service w) (clock w)))
  | Return q =>
      let (s', answer) := create (client o) (service w) q in
      let aborted := mkState o (mkWorld out (calls w ++ [q]) s' (clock w)) in
      match answer with
      | Raise e => (Raise e, aborted)
      | Return resp =>
          match response_text resp with
          | None => (Raise IndexError, aborted)
          | Some t =>
              (Return tt,
               mkState (with_outputs o (dict_setitem (outputs o) key t))
                       (mkWorld (out ++ [t]) (calls w ++ [q]) s' (clock w)))
          end
      end
  end.

(** [d[k]] as an outcome. *)
Definition lookup (d : dict string) (k : string) : Outcome string :=
  match dict_getitem d k with
  | Some v => Return v
  | None => Raise (KeyError k)
  end.

(** The request that each phase builds from the instance, or the [KeyError]
    of the first entry it does not find. *)
Definition build_market_research (o : MarketingStrategyWorkflow) : Outcome Request.t :=
  Return (request_market_research (model o) (product_name o)).

Definition build_customer_analysis (o : MarketingStrategyWorkflow) : Outcome Request.t :=
  match lookup (outputs o) "market_research" with
  | Return mr => Return (request_customer_analysis (model o) mr)
  | Raise e => Raise e
  end.

Definition build_strategy (o : MarketingStrategyWorkflow) : Outcome Request.t :=
  match lookup (outputs o) "market_research" with
  | Return mr =>
      match lookup (outputs o) "customer_analysis" with
      | Return ca => Return (request_strategy (model o) (product_name o) mr ca)
      | Raise e => Raise e
      end
  | Raise e => Raise e
  end.

Definition build_campaigns (o : MarketingStrategyWorkflow) : Outcome Request.t :=
  match lookup (outputs o) "strategy" with
  | Return st => Return (request_campaigns (model o) st)
  | Raise e => Raise e
  end.

Definition build_quality (o : MarketingStrategyWorkflow) : Outcome Request.t :=
  match lookup (outputs o) "market_research" with
  | Return mr =>
      match lookup (outputs o) "customer_analysis" with
      | Return ca =>
          match lookup (outputs o) "strategy" with
          | Return st =>
              match lookup (outputs o) "campaigns" with
              | Return cp => Return (request_quality (model o) mr ca st cp)
              | Raise e => Raise e
              end
          | Raise e => Raise e
          end
      | Raise e => Raise e
      end
  | Raise e => Raise e
  end.

(** The phases with their keys, in the order of [run]. *)
Definition phases : list (string * M (State SvcState) unit) :=
  [("market_research", phase_market_research create);
   ("customer_analysis", phase_customer_analysis create);
   ("strategy", phase_strategy create);
   ("campaigns", phase_campaigns create);
   ("quality", phase_quality create)].

(** [run] cut after its first [n] phases. *)
Definition run_upto (n : nat) : M (State SvcState) unit :=
  print ("
" ++ str_mul "=" 80) ;;
  print "AUTOGEN MARKETING STRATEGY WORKFLOW" ;;
  print (str_mul "=" 80) ;;
  o <- get_self ;;
  print ("Product: " ++ product_name o) ;;
  print ("Model: " ++ model o) ;;
  now <- in_world datetime_now ;;
  print ("Start Time: " ++ now ++ "
") ;;
  for_each (firstn n phases) snd.

End Traces.

(** ** Fixtures: the scenario of a product called Widget X *)

Definition widget_config : Config := mkConfig true "sk-test" "http://localhost" "test-model".

Definition broken_config : Config := mkConfig false "" "" "".

Definition widget_client : OpenAI := mkOpenAI "sk-test" "http://localhost".

(** A service that answers R1 to R5, then raises. *)
Definition widget_script : list (Outcome ChatCompletion) :=
  map (fun text => Return (completion text)) ["R1"; "R2"; "R3"; "R4"; "R5"].

Definition widget_world : World (list (Outcome ChatCompletion)) :=
  mkWorld [] [] widget_script "2025-01-01 00:00:00".

(** The new instance for Widget X, and the state of its run after the first
    two phases. *)
Definition widget_new : State (list (Outcome ChatCompletion)) :=
  mkState (mkWorkflow widget_client [] "test-model" "Widget X") widget_world.

Definition widget_after_two_phases : State (list (Outcome ChatCompletion)) :=
  snd (run_upto scripted_create 2 widget_new).

(** A service that fails on its third call. *)
Definition failing_script : list (Outcome ChatCompletion) :=
  [Return (completion "R1"); Return (completion "R2"); Raise (OtherError "RateLimitError")].

Definition failing_world : World (list (Outcome ChatCompletion)) :=
  mkWorld [] [] failing_script "2025-01-01 00:00:00".

(** A deterministic service: it echoes the user prompt. *)
Definition echo (_ : OpenAI) (req : Request.t) : Outcome ChatCompletion :=
  match user_prompt_of req with
  | Some u => Return (completion ("echo: " ++ u))
  | None => Raise (OtherError "BadRequestError")
  end.

Definition echo_world (n : nat) : World nat := mkWorld [] [] n "2025-01-01 00:00:00".

(** The new instance for Widget X in front of the failing service. *)
Definition widget_failing : State (list (Outcome ChatCompletion)) :=
  mkState (mkWorkflow widget_client [] "test-model" "Widget X") failing_world.

(** An instance that holds the outputs of an earlier run, in front of the
    failing service. *)
Definition widget_used : State (list (Outcome ChatCompletion)) :=
  mkState
    (mkWorkflow widget_client
       (combine phase_keys ["old 1"; "old 2"; "old 3"; "old 4"; "old 5"])
       "test-model" "Widget X")
    failing_world.


(** ** Dictionaries *)

Lemma dict_getitem_setitem_same {V : Type} (d : dict V) (k : string) (v : V) :
  dict_getitem (dict_setitem d k v) k = Some v.
Proof.
  induction d as [|[k' v'] d IH]; simpl.
  - now rewrite String.eqb_refl.
  - destruct (String.eqb k' k) eqn:E; simpl; rewrite E; auto.
Qed.

Lemma dict_getitem_setitem_other {V : Type} (d : dict V) (k k' : string) (v : V) :
  k <> k' -> dict_getitem (dict_setitem d k v) k' = dict_getitem d k'.
Proof.
  intros Hk. induction d as [|[k0 v0] d IH]; simpl.
  - destruct (String.eqb_spec k k'); congruence.
  - destruct (String.eqb_spec k0 k) as [->|Hne]; simpl.
    + destruct (String.eqb_spec k k'); congruence.
    + now rewrite IH.
Qed.

Lemma dict_getitem_None {V : Type} (d : dict V) (k : string) :
  dict_getitem d k = None <-> ~ In k (keys d).
Proof.
  induction d as [|[k' v'] d IH]; simpl.
  - tauto.
  - destruct (String.eqb_spec k' k) as [->|Hne].
    + split; [discriminate | intros H; exfalso; apply H; now left].
    + rewrite IH. tauto.
Qed.

Lemma dict_setitem_fresh {V : Type} (d : dict V) (k : string) (v : V) :
  dict_getitem d k = None -> dict_setitem d k v = (d ++ [(k, v)])%list.
Proof.
  induction d as [|[k' v'] d IH]; simpl; [reflexivity|].
  destruct (String.eqb k' k); [discriminate|].
  intros H. now rewrite IH.
Qed.

Lemma dict_setitem_same_value {V : Type} (d : dict V) (k : string) (v : V) :
  dict_getitem d k = Some v -> dict_setitem d k v = d.
Proof.
  induction d as [|[k' v'] d IH]; simpl; [discriminate|].
  destruct (String.eqb k' k).
  - now intros [= ->].
  - intros H. now rewrite IH.
Qed.

(** ** Executing the methods *)

Section Properties.
Context {SvcState : Type}.
Variable create : OpenAI -> SvcState -> Request.t -> SvcState * Outcome ChatCompletion.
Variable config : Config.

Ltac run_monad :=
  cbv [bind ret raise print in_world print_world get_self datetime_now
       outputs_getitem outputs_setitem chat_completions_create first_choice_content
       self world stdout calls service clock client outputs model product_name
       with_outputs lookup header phase_result].

Ltac finish := rewrite <- ?app_assoc; cbn [app]; reflexivity.

Ltac phase_eq :=
  run_monad; unfold response_text;
  repeat match goal with
  | |- context [dict_getitem ?d ?k] =>
      lazymatch d with
      | dict_setitem _ _ _ => fail
      | _ => destruct (dict_getitem d k)
      end
  end;
  try finish;
  destruct (create _ _ _) as [? [?|?]]; try finish;
  match goal with |- context [choices ?r] => destruct (choices r) end; try finish;
  rewrite dict_getitem_setitem_same; finish.

Lemma phase_market_research_eq (st : State SvcState) :
  phase_market_research create st =
  phase_result create "PHASE 1: MARKET RESEARCH" "market_research"
    (build_market_research (self st)) st.
Proof.
  destruct st as [[c d m pn] [out cl sv ck]].
  unfold phase_market_research, build_market_research. phase_eq.
Qed.

Lemma phase_customer_analysis_eq (st : State SvcState) :
  phase_customer_analysis create st =
  phase_result create "PHASE 2: CUSTOMER INSIGHTS" "customer_analysis"
    (build_customer_analysis (self st)) st.
Proof.
  destruct st as [[c d m pn] [out cl sv ck]].
  unfold phase_customer_analysis, build_customer_analysis. phase_eq.
Qed.

Lemma phase_strategy_eq (st : State SvcState) :
  phase_strategy create st =
  phase_result create "PHASE 3: MARKETING STRATEGY" "strategy"
    (build_strategy (self st)) st.
Proof.
  destruct st as [[c d m pn] [out cl sv ck]].
  unfold phase_strategy, build_strategy. phase_eq.
Qed.

Lemma phase_campaigns_eq (st : State SvcState) :
  phase_campaigns create st =
  phase_result create "PHASE 4: CAMPAIGN DESIGN" "campaigns"
    (build_campaigns (self st)) st.
Proof.
  destruct st as [[c d m pn] [out cl sv ck]].
  unfold phase_campaigns, build_campaigns. phase_eq.
Qed.

Lemma phase_quality_eq (st : State SvcState) :
  phase_quality create st =
  phase_result create "PHASE 5: QUALITY REVIEW" "quality"
    (build_quality (self st)) st.
Proof.
  destruct st as [[c d m pn] [out cl sv ck]].
  unfold phase_quality, build_quality. phase_eq.
Qed.

Lemma for_each_print_entry (d : list (string * string)) (st : State SvcState) :
  for_each d print_entry st =
  (Return tt,
   mkState (self st)
     (mkWorld (stdout (world st) ++ summary_entries d) (calls (world st))
        (service (world st)) (clock (world st)))).
Proof.
  revert st. induction d as [|kv d IH]; intros [o [out cl sv ck]].
  - unfold summary_entries, items. cbn. now rewrite app_nil_r.
  - cbn [for_each]. unfold bind at 1. unfold print_entry at 1. run_monad.
    rewrite IH. unfold summary_entries, items. run_monad. cbn [flat_map].
    finish.
Qed.

Lemma print_summary_eq (st : State SvcState) :
  print_summary st =
  (Return tt,
   mkState (self st)
     (mkWorld (stdout (world st) ++ summary_lines (outputs (self st))) (calls (world st))
        (service (world st)) (clock (world st)))).
Proof.
  destruct st as [o [out cl sv ck]].
  unfold print_summary. run_monad. rewrite for_each_print_entry.
  unfold summary_lines. run_monad. finish.
Qed.

Ltac phase_step :=
  first [ rewrite phase_market_research_eq; unfold build_market_research
        | rewrite phase_customer_analysis_eq; unfold build_customer_analysis
        | rewrite phase_strategy_eq; unfold build_strategy
        | rewrite phase_campaigns_eq; unfold build_campaigns
        | rewrite phase_quality_eq; unfold build_quality
        | rewrite print_summary_eq ];
  run_monad; cbn [dict_getitem dict_setitem String.eqb Ascii.eqb Bool.eqb].

Lemma run_complete c m pn w R1 R2 R3 R4 R5 s_end :
  service_returns create c (service w) (requests m pn R1 R2 R3 R4) [R1; R2; R3; R4; R5] s_end ->
  let d := combine phase_keys [R1; R2; R3; R4; R5] in
  run create (mkState (mkWorkflow c [] m pn) w) =
  (Return tt,
   mkState (mkWorkflow c d m pn)
     (mkWorld
        (stdout w ++ banner pn m (clock w) ++
         header "PHASE 1: MARKET RESEARCH" ++ [R1] ++
         header "PHASE 2: CUSTOMER INSIGHTS" ++ [R2] ++
         header "PHASE 3: MARKETING STRATEGY" ++ [R3] ++
         header "PHASE 4: CAMPAIGN DESIGN" ++ [R4] ++
         header "PHASE 5: QUALITY REVIEW" ++ [R5] ++
         summary_lines d)
        (calls w ++ requests m pn R1 R2 R3 R4) s_end (clock w))).
Proof.
  destruct w as [out cl sv ck].
  intros (s1 & r1 & E1 & T1 & s2 & r2 & E2 & T2 & s3 & r3 & E3 & T3 &
          s4 & r4 & E4 & T4 & s5 & r5 & E5 & T5 & ->) d.
  cbn [service] in E1.
  unfold run. run_monad.
  phase_step. rewrite E1, T1.
  phase_step. rewrite E2, T2.
  phase_step. rewrite E3, T3.
  phase_step. rewrite E4, T4.
  phase_step. rewrite E5, T5.
  phase_step.
  unfold banner, header, requests. rewrite <- ?app_assoc. reflexivity.
Qed.

(** A run on a new instance, whatever the service does: the texts stored are
    those of the phases that completed, and the requests sent are those of
    these phases and of the one that failed, if one did. *)
Lemma run_trace c m pn w :
  exists texts : list string,
    length texts <= 5 /\
    self (snd (run create (mkState (mkWorkflow c [] m pn) w))) =
      mkWorkflow c (combine phase_keys texts) m pn /\
    calls (world (snd (run create (mkState (mkWorkflow c [] m pn) w)))) =
      (calls w ++
       firstn (S (length texts))
         (requests m pn (nth 0 texts "") (nth 1 texts "") (nth 2 texts "") (nth 3 texts "")))%list /\
    (fst (run create (mkState (mkWorkflow c [] m pn) w)) = Return tt <-> length texts = 5).
Proof.
  destruct w as [out cl sv ck].
  unfold run. run_monad.
  phase_step.
  destruct (create c sv _) as [s1 [r1|e1]];
    [destruct (response_text r1) as [t1|]|].
  2,3: exists []; cbn; rewrite <- ?app_assoc; repeat split; try lia; discriminate.
  phase_step.
  destruct (create c s1 _) as [s2 [r2|e2]];
    [destruct (response_text r2) as [t2|]|].
  2,3: exists [t1]; cbn; rewrite <- ?app_assoc; repeat split; try lia; discriminate.
  phase_step.
  destruct (create c s2 _) as [s3 [r3|e3]];
    [destruct (response_text r3) as [t3|]|].
  2,3: exists [t1; t2]; cbn; rewrite <- ?app_assoc; repeat split; try lia; discriminate.
  phase_step.
  destruct (create c s3 _) as [s4 [r4|e4]];
    [destruct (response_text r4) as [t4|]|].
  2,3: exists [t1; t2; t3]; cbn; rewrite <- ?app_assoc; repeat split; try lia; discriminate.
  phase_step.
  destruct (create c s4 _) as [s5 [r5|e5]];
    [destruct (response_text r5) as [t5|]|].
  2,3: exists [t1; t2; t3; t4]; cbn; rewrite <- ?app_assoc; repeat split; try lia; discriminate.
  phase_step.
  exists [t1; t2; t3; t4; t5]; cbn; rewrite <- ?app_assoc; repeat split; try lia.
Qed.


(** ** The constructor *)

Lemma init_valid (arg : option string) (w : World SvcState) :
  validate_setup config = true ->
  init config arg w =
  (Return (mkWorkflow (mkOpenAI (API_KEY config) (API_BASE config)) []
             (OPENAI_MODEL config)
             (match arg with Some p => p | None => "SmartHealth Fitness Band" end)),
   w).
Proof. intros Hv. unfold init. rewrite Hv. reflexivity. Qed.

Lemma init_invalid (arg : option string) (w : World SvcState) :
  validate_setup config = false ->
  init config arg w =
  (Raise (SystemExit 1),
   mkWorld (stdout w ++ ["ERROR: Configuration validation failed!"]) (calls w)
     (service w) (clock w)).
Proof. intros Hv. unfold init. rewrite Hv. reflexivity. Qed.

(** A run that stops in the third phase because the service raised there. *)
Lemma run_fails_in_strategy c m pn w R1 R2 s2 s3 e :
  service_returns create c (service w)
    [request_market_research m pn; request_customer_analysis m R1] [R1; R2] s2 ->
  create c s2 (request_strategy m pn R1 R2) = (s3, Raise e) ->
  run create (mkState (mkWorkflow c [] m pn) w) =
  (Raise e,
   mkState (mkWorkflow c [("market_research", R1); ("customer_analysis", R2)] m pn)
     (mkWorld
        (stdout w ++ banner pn m (clock w) ++
         header "PHASE 1: MARKET RESEARCH" ++ [R1] ++
         header "PHASE 2: CUSTOMER INSIGHTS" ++ [R2] ++
         header "PHASE 3: MARKETING STRATEGY")
        (calls w ++
         [request_market_research m pn; request_customer_analysis m R1;
          request_strategy m pn R1 R2])
        s3 (clock w))).
Proof.
  destruct w as [out cl sv ck].
  intros (s1 & r1 & E1 & T1 & s2' & r2 & E2 & T2 & ->) E3.
  cbn [service] in E1.
  unfold run. run_monad.
  phase_step. rewrite E1, T1.
  phase_step. rewrite E2, T2.
  phase_step. rewrite E3.
  unfold banner, header. rewrite <- ?app_assoc. reflexivity.
Qed.

(** ** The claims *)

(** C1. When the service answers the five successive calls of a run with
    R1 to R5, the run completes, [self.outputs] holds exactly the keys
    market_research, customer_analysis, strategy, campaigns, quality, in this
    order of insertion and bound to R1 to R5, and the last thing printed is
    the summary, which lists these entries in the same order. *)
Theorem run_stores_responses_in_phase_order
    (product_name : string) (w : World SvcState) (R1 R2 R3 R4 R5 : string)
    (s_end : SvcState) :
  validate_setup config = true ->
  service_returns create (mkOpenAI (API_KEY config) (API_BASE config)) (service w)
    (requests (OPENAI_MODEL config) product_name R1 R2 R3 R4) [R1; R2; R3; R4; R5] s_end ->
  exists o w',
    construct_and_run create config (Some product_name) w = (Return tt, Some o, w') /\
    items (outputs o) =
      [("market_research", R1); ("customer_analysis", R2); ("strategy", R3);
       ("campaigns", R4); ("quality", R5)] /\
    exists before,
      stdout w' =
      (before ++ header "FINAL SUMMARY — MARKETING STRATEGY" ++
       ["
--- MARKET_RESEARCH ---
"; R1; "
--- CUSTOMER_ANALYSIS ---
"; R2; "
--- STRATEGY ---
"; R3; "
--- CAMPAIGNS ---
"; R4; "
--- QUALITY ---
"; R5])%list.
Proof.
  intros Hv Hs.
  unfold construct_and_run. rewrite (init_valid _ _ Hv).
  rewrite (run_complete _ _ _ _ _ _ _ _ _ _ Hs).
  eexists. eexists. split; [reflexivity|]. split; [reflexivity|].
  cbn [world stdout]. unfold summary_lines.
  exists (stdout w ++ banner product_name (OPENAI_MODEL config) (clock w) ++
          header "PHASE 1: MARKET RESEARCH" ++ [R1] ++
          header "PHASE 2: CUSTOMER INSIGHTS" ++ [R2] ++
          header "PHASE 3: MARKETING STRATEGY" ++ [R3] ++
          header "PHASE 4: CAMPAIGN DESIGN" ++ [R4] ++
          header "PHASE 5: QUALITY REVIEW" ++ [R5])%list.
  rewrite <- !app_assoc. reflexivity.
Qed.

(** C3. When [Config.validate_setup()] fails, the constructor prints the
    error message and exits with status 1: no instance exists, [run] is not
    entered, nothing else is printed, and the service has received no request
    and is in the state it was in. *)
Theorem failed_validation_exits_before_any_call
    (arg : option string) (w : World SvcState) :
  validate_setup config = false ->
  construct_and_run create config arg w =
  (Raise (SystemExit 1), None,
   mkWorld (stdout w ++ ["ERROR: Configuration validation failed!"]) (calls w)
     (service w) (clock w)).
Proof.
  intros Hv. unfold construct_and_run. now rewrite (init_invalid _ _ Hv).
Qed.

(** C4. When the service answers the first two calls with R1 and R2 and
    raises on the call of the third phase, the run stops with that exception;
    [self.outputs] then holds exactly market_research and customer_analysis,
    the service has received three requests and no more, and the console
    ends with the header of the third phase. *)
Theorem service_error_in_phase_3_keeps_two_outputs
    (product_name : string) (w : World SvcState) (R1 R2 : string)
    (s2 s3 : SvcState) (e : PyExc) :
  let c := mkOpenAI (API_KEY config) (API_BASE config) in
  let m := OPENAI_MODEL config in
  validate_setup config = true ->
  service_returns create c (service w)
    [request_market_research m product_name; request_customer_analysis m R1] [R1; R2] s2 ->
  create c s2 (request_strategy m product_name R1 R2) = (s3, Raise e) ->
  exists o w',
    construct_and_run create config (Some product_name) w = (Raise e, Some o, w') /\
    outputs o = [("market_research", R1); ("customer_analysis", R2)] /\
    calls w' =
      (calls w ++
       [request_market_research m product_name; request_customer_analysis m R1;
        request_strategy m product_name R1 R2])%list /\
    stdout w' =
      (stdout w ++ banner product_name m (clock w) ++
       header "PHASE 1: MARKET RESEARCH" ++ [R1] ++
       header "PHASE 2: CUSTOMER INSIGHTS" ++ [R2] ++
       header "PHASE 3: MARKETING STRATEGY")%list.
Proof.
  intros c m Hv Hs He.
  unfold construct_and_run. rewrite (init_valid _ _ Hv).
  fold c m. rewrite (run_fails_in_strategy _ _ _ _ _ _ _ _ _ Hs He).
  eexists. eexists. repeat split.
Qed.

(** C10. A constructor call without a product name does what the call with
    the name SmartHealth Fitness Band does, and so does the run that follows;
    when the constructor returns, this is the name of the instance. *)
Theorem default_product_name (w : World SvcState) :
  init config None w = init config (Some "SmartHealth Fitness Band") w /\
  construct_and_run create config None w =
    construct_and_run create config (Some "SmartHealth Fitness Band") w /\
  construct_and_run create config None w = main create config w /\
  match init config None w with
  | (Return o, _) => product_name o = "SmartHealth Fitness Band"
  | (Raise _, _) => validate_setup config = false
  end.
Proof.
  repeat split.
  unfold init. destruct (validate_setup config); reflexivity.
Qed.

(** ** What a phase does to the request log and to the instance *)

Lemma phase_result_calls title key req (st : State SvcState) :
  calls (world (snd (phase_result create title key req st))) =
  (calls (world st) ++ match req with Return q => [q] | Raise _ => [] end)%list.
Proof.
  destruct st as [o [out cl sv ck]]. unfold phase_result. cbn [self world calls service].
  destruct req as [q|e]; [|cbn; now rewrite app_nil_r].
  destruct (create _ _ _) as [s' [resp|e]]; [destruct (response_text resp)|]; reflexivity.
Qed.

Lemma phase_result_returns title key req (st : State SvcState) :
  fst (phase_result create title key req st) = Return tt -> exists q, req = Return q.
Proof.
  unfold phase_result. destruct req as [q|e]; [eauto|]. cbn. discriminate.
Qed.

Lemma phase_result_self title key req (st : State SvcState) :
  (fst (phase_result create title key req st) = Return tt /\
   exists text,
     self (snd (phase_result create title key req st)) =
     with_outputs (self st) (dict_setitem (outputs (self st)) key text)) \/
  (exists e, fst (phase_result create title key req st) = Raise e /\
             self (snd (phase_result create title key req st)) = self st).
Proof.
  unfold phase_result. destruct req as [q|e]; [|right; exists e; split; reflexivity].
  destruct (create _ _ _) as [s' [resp|e]]; [destruct (response_text resp) as [t|]|];
    cbn [fst snd self].
  - left. split; [reflexivity | exists t; reflexivity].
  - right. exists IndexError. split; reflexivity.
  - right. exists e. split; reflexivity.
Qed.

(** The builders of the five phases, in the order of [phases]. *)
Lemma phases_are_results n key (ph : M (State SvcState) unit) :
  nth_error (phases create) n = Some (key, ph) ->
  nth_error phase_keys n = Some key /\
  exists title build,
    (forall st, ph st = phase_result create title key (build (self st)) st) /\
    (forall o q, build o = Return q ->
       nth_error phase_parameters n = Some (parameters_of q) /\ system_then_user q).
Proof.
  unfold build_market_research, build_customer_analysis, build_strategy,
    build_campaigns, build_quality, lookup.
  destruct n as [|[|[|[|[|n]]]]]; cbn [nth_error phases];
    [ intros [= <- <-]; (split; [reflexivity|]) .. | intros H ].
  - exists "PHASE 1: MARKET RESEARCH", build_market_research.
    split; [apply phase_market_research_eq|].
    intros o q [= <-]. split; [reflexivity | do 2 eexists; reflexivity].
  - exists "PHASE 2: CUSTOMER INSIGHTS", build_customer_analysis.
    split; [apply phase_customer_analysis_eq|].
    intros o q. unfold build_customer_analysis, lookup.
    repeat destruct (dict_getitem _ _); intros [= <-].
    split; [reflexivity | do 2 eexists; reflexivity].
  - exists "PHASE 3: MARKETING STRATEGY", build_strategy.
    split; [apply phase_strategy_eq|].
    intros o q. unfold build_strategy, lookup.
    repeat destruct (dict_getitem _ _); intros [= <-].
    split; [reflexivity | do 2 eexists; reflexivity].
  - exists "PHASE 4: CAMPAIGN DESIGN", build_campaigns.
    split; [apply phase_campaigns_eq|].
    intros o q. unfold build_campaigns, lookup.
    repeat destruct (dict_getitem _ _); intros [= <-].
    split; [reflexivity | do 2 eexists; reflexivity].
  - exists "PHASE 5: QUALITY REVIEW", build_quality.
    split; [apply phase_quality_eq|].
    intros o q. unfold build_quality, lookup.
    repeat destruct (dict_getitem _ _); intros [= <-].
    split; [reflexivity | do 2 eexists; reflexivity].
  - destruct n; discriminate H.
Qed.

Lemma phase_sends n key (ph : M (State SvcState) unit) p (st : State SvcState) :
  nth_error (phases create) n = Some (key, ph) ->
  nth_error phase_parameters n = Some p ->
  exists sent,
    calls (world (snd (ph st))) = (calls (world st) ++ sent)%list /\
    (sent = [] \/ exists q, sent = [q] /\ parameters_of q = p /\ system_then_user q) /\
    (fst (ph st) = Return tt -> length sent = 1).
Proof.
  intros Hph Hp.
  destruct (phases_are_results _ _ _ Hph) as (_ & title & build & Heq & Hbuild).
  rewrite Heq, phase_result_calls.
  destruct (build (self st)) as [q|e] eqn:Hq.
  - exists [q]. split; [reflexivity|]. split; [|reflexivity].
    right. exists q. destruct (Hbuild _ _ Hq) as [Hpar Hmsg].
    rewrite Hp in Hpar. injection Hpar as ->. auto.
  - exists []. split; [reflexivity|]. split; [now left|].
    intros H. apply phase_result_returns in H. destruct H. discriminate.
Qed.

Lemma sends_bind P {A B : Type} (m : M (State SvcState) A) (k : A -> M (State SvcState) B) :
  sends P m -> (forall a, sends P (k a)) -> sends P (bind m k).
Proof.
  intros Hm Hk st. unfold bind.
  destruct (Hm st) as (sent1 & E1 & F1).
  destruct (m st) as [[a|e] st1]; cbn [snd] in E1.
  - destruct (Hk a st1) as (sent2 & E2 & F2).
    exists (sent1 ++ sent2)%list. rewrite E2, E1, app_assoc.
    split; [reflexivity | now apply Forall_app].
  - exists sent1. now split.
Qed.

Lemma sends_nothing P {A : Type} (m : M (State SvcState) A) :
  (forall st, calls (world (snd (m st))) = calls (world st)) -> sends P m.
Proof. intros H st. exists []. rewrite H, app_nil_r. now split. Qed.

Lemma sends_print P (s : string) : sends (SvcState := SvcState) P (print s).
Proof. apply sends_nothing. now intros [o [out cl sv ck]]. Qed.

Lemma sends_get_self P : sends (SvcState := SvcState) P get_self.
Proof. now apply sends_nothing. Qed.

Lemma sends_datetime_now P : sends P (in_world (SvcState := SvcState) datetime_now).
Proof. apply sends_nothing. now intros [o [out cl sv ck]]. Qed.

Lemma sends_print_summary P : sends P (print_summary (SvcState := SvcState)).
Proof. apply sends_nothing. intros st. now rewrite print_summary_eq. Qed.

Lemma sends_phase P n key (ph : M (State SvcState) unit) :
  nth_error (phases create) n = Some (key, ph) ->
  (forall q, system_then_user q -> P q) -> sends P ph.
Proof.
  intros Hph HP st.
  destruct (nth_error phase_parameters n) as [p|] eqn:Hp.
  - destruct (phase_sends n key ph p st Hph Hp) as (sent & E & [->|(q & -> & _ & Hq)] & _).
    + exists []. split; [exact E | constructor].
    + exists [q]. split; [exact E | auto].
  - apply nth_error_None in Hp. cbn in Hp.
    assert (n < length (phases create)) by (apply nth_error_Some; congruence).
    cbn in H. lia.
Qed.

Lemma sends_run P : (forall q, system_then_user q -> P q) -> sends P (run create).
Proof.
  intros HP. unfold run.
  repeat match goal with
  | |- sends _ (bind _ _) => apply sends_bind; [|intros ?]
  | |- sends _ (print _) => apply sends_print
  | |- sends _ get_self => apply sends_get_self
  | |- sends _ (in_world datetime_now) => apply sends_datetime_now
  | |- sends _ print_summary => apply sends_print_summary
  | |- sends _ (phase_market_research _) =>
      apply (sends_phase P 0 "market_research"); [reflexivity | exact HP]
  | |- sends _ (phase_customer_analysis _) =>
      apply (sends_phase P 1 "customer_analysis"); [reflexivity | exact HP]
  | |- sends _ (phase_strategy _) =>
      apply (sends_phase P 2 "strategy"); [reflexivity | exact HP]
  | |- sends _ (phase_campaigns _) =>
      apply (sends_phase P 3 "campaigns"); [reflexivity | exact HP]
  | |- sends _ (phase_quality _) =>
      apply (sends_phase P 4 "quality"); [reflexivity | exact HP]
  end.
Qed.

(** C5. Each phase sends at most one request, exactly one when it returns,
    and that request carries the phase's fixed parameters: temperature 0.7
    and 500 tokens for phases 1, 3 and 4, temperature 0.7 and 400 tokens for
    phase 2, temperature 0.5 and 500 tokens for phase 5.  In a run on a new
    instance the requests sent carry these parameters in phase order, one for
    each phase that was started, five when the run completes. *)
Theorem each_phase_sends_one_request_with_fixed_parameters :
  Forall2
    (fun (ph : M (State SvcState) unit) (p : float * Z) =>
       forall st, exists sent,
         calls (world (snd (ph st))) = (calls (world st) ++ sent)%list /\
         (sent = [] \/ exists q, sent = [q] /\ parameters_of q = p) /\
         (fst (ph st) = Return tt -> length sent = 1))
    (map snd (phases create))
    [(0.7%float, 500%Z); (0.7%float, 400%Z); (0.7%float, 500%Z); (0.7%float, 500%Z);
     (0.5%float, 500%Z)] /\
  forall c m pn w,
    exists sent,
      calls (world (snd (run create (mkState (mkWorkflow c [] m pn) w)))) =
        (calls w ++ sent)%list /\
      map parameters_of sent = firstn (length sent) phase_parameters /\
      length sent =
        Nat.min 5 (S (length (outputs (self (snd (run create
                                                  (mkState (mkWorkflow c [] m pn) w))))))) /\
      (fst (run create (mkState (mkWorkflow c [] m pn) w)) = Return tt -> length sent = 5).
Proof.
  split.
  - assert (H : forall n key ph p,
               nth_error (phases create) n = Some (key, ph) ->
               nth_error phase_parameters n = Some p ->
               forall st, exists sent,
                 calls (world (snd (ph st))) = (calls (world st) ++ sent)%list /\
                 (sent = [] \/ exists q, sent = [q] /\ parameters_of q = p) /\
                 (fst (ph st) = Return tt -> length sent = 1)).
    { intros n key ph p Hph Hp st.
      destruct (phase_sends n key ph p st Hph Hp) as (sent & E & Hs & Hr).
      exists sent. repeat split; auto.
      destruct Hs as [->|(q & -> & Hq & _)]; [now left | right; eauto]. }
    cbn [map phases snd].
    repeat constructor.
    + exact (H 0 _ _ _ eq_refl eq_refl).
    + exact (H 1 _ _ _ eq_refl eq_refl).
    + exact (H 2 _ _ _ eq_refl eq_refl).
    + exact (H 3 _ _ _ eq_refl eq_refl).
    + exact (H 4 _ _ _ eq_refl eq_refl).
  - intros c m pn w.
    destruct (run_trace c m pn w) as (texts & Hlen & Hself & Hcalls & Hret).
    rewrite Hself, Hcalls. cbn [outputs].
    eexists. split; [reflexivity|].
    rewrite Hret.
    destruct texts as [|t1 [|t2 [|t3 [|t4 [|t5 [|t6 texts]]]]]];
      cbn in Hlen |- *; repeat split; try lia; try discriminate.
Qed.

(** C9. Every request that a phase sends, in any state, carries exactly two
    messages, a system message followed by a user message; so does every
    request sent during [run]. *)
Theorem every_request_is_system_then_user :
  Forall (fun ph : M (State SvcState) unit => sends system_then_user ph)
    (map snd (phases create)) /\
  sends system_then_user (run create).
Proof.
  split.
  - cbn [map phases snd]. repeat constructor.
    + apply (sends_phase _ 0 "market_research"); [reflexivity | auto].
    + apply (sends_phase _ 1 "customer_analysis"); [reflexivity | auto].
    + apply (sends_phase _ 2 "strategy"); [reflexivity | auto].
    + apply (sends_phase _ 3 "campaigns"); [reflexivity | auto].
    + apply (sends_phase _ 4 "quality"); [reflexivity | auto].
  - apply sends_run. auto.
Qed.

(** ** The prompts *)

Lemma string_app_assoc (x y z : string) : (x ++ y) ++ z = x ++ (y ++ z).
Proof. induction x as [|a x IH]; cbn; [reflexivity | now rewrite IH]. Qed.

Lemma contains_here (pre sub post : string) : contains (pre ++ sub ++ post) sub.
Proof. now exists pre, post. Qed.

Lemma contains_later (pre s sub : string) : contains s sub -> contains (pre ++ s) sub.
Proof.
  intros (a & b & ->). exists (pre ++ a), b. now rewrite string_app_assoc.
Qed.

Ltac find_substring :=
  first [ apply contains_here | apply contains_later; find_substring ].

(** C6. The system prompts of phases 1 and 3 contain the product name; the
    system prompts of phases 2, 4 and 5 are the same strings whatever the
    product name and the texts read; in a run on a new instance the system
    prompts sent are these, in phase order.  For the product Widget X, the
    system prompt of phase 1 contains Widget X. *)
Theorem system_prompts_and_product_name :
  (forall model product_name R1 R2 R3 R4,
     map system_prompt_of (requests model product_name R1 R2 R3 R4) =
     [Some (system_prompt_market_research product_name);
      Some system_prompt_customer_analysis;
      Some (system_prompt_strategy product_name);
      Some system_prompt_campaigns;
      Some system_prompt_quality]) /\
  (forall product_name,
     contains (system_prompt_market_research product_name) product_name /\
     contains (system_prompt_strategy product_name) product_name) /\
  (forall c m product_name w,
     exists sent,
       calls (world (snd (run create (mkState (mkWorkflow c [] m product_name) w)))) =
         (calls w ++ sent)%list /\
       map system_prompt_of sent =
         map Some (firstn (length sent) (system_prompts product_name))) /\
  contains (system_prompt_market_research "Widget X") "Widget X".
Proof.
  split; [reflexivity|]. split; [|split].
  - intros product_name. split.
    + unfold system_prompt_market_research. find_substring.
    + unfold system_prompt_strategy. find_substring.
  - intros c m product_name w.
    destruct (run_trace c m product_name w) as (texts & Hlen & _ & Hcalls & _).
    rewrite Hcalls. eexists. split; [reflexivity|].
    destruct texts as [|t1 [|t2 [|t3 [|t4 [|t5 [|t6 texts]]]]]];
      cbn in Hlen; try lia; reflexivity.
  - unfold system_prompt_market_research. find_substring.
Qed.

Lemma user_prompts_nth_error (texts : list string) (k : nat) :
  nth_error (user_prompts texts) k =
  match k with
  | 0 => Some user_prompt_market_research
  | 1 => Some (user_prompt_customer_analysis (nth 0 texts ""))
  | 2 => Some (user_prompt_strategy (nth 0 texts "") (nth 1 texts ""))
  | 3 => Some (user_prompt_campaigns (nth 2 texts ""))
  | 4 => Some (user_prompt_quality (nth 0 texts "") (nth 1 texts "") (nth 2 texts "")
                 (nth 3 texts ""))
  | _ => None
  end.
Proof. destruct k as [|[|[|[|[|[|k]]]]]]; reflexivity. Qed.

(** C2. In every run the user prompts sent are, in phase order, those of
    [user_prompts] applied to the texts stored in [self.outputs], one for
    each phase that was started.  The user prompt of phase 1 reads no output,
    that of phase 2 the output of phase 1, that of phase 3 the outputs of
    phases 1 and 2, that of phase 4 the output of phase 3, that of phase 5
    the outputs of phases 1 to 4: a prompt is the same for any two lists of
    texts that agree on the outputs it reads, and it contains each of them. *)
Theorem user_prompts_read_earlier_outputs_only :
  (forall arg w,
     validate_setup config = true ->
     exists r o w' texts sent,
       construct_and_run create config arg w = (r, Some o, w') /\
       outputs o = combine phase_keys texts /\
       length texts <= 5 /\
       calls w' = (calls w ++ sent)%list /\
       map user_prompt_of sent = map Some (firstn (S (length texts)) (user_prompts texts))) /\
  (forall k deps,
     nth_error dependencies k = Some deps ->
     Forall (fun i => i < k) deps /\
     (forall texts texts',
        (forall i, In i deps -> nth i texts "" = nth i texts' "") ->
        nth_error (user_prompts texts) k = nth_error (user_prompts texts') k) /\
     (forall texts i,
        In i deps ->
        exists prompt,
          nth_error (user_prompts texts) k = Some prompt /\
          contains prompt (nth i texts ""))).
Proof.
  split.
  - intros arg w Hv. unfold construct_and_run. rewrite (init_valid _ _ Hv).
    set (pn := match arg with Some p => p | None => _ end).
    destruct (run_trace (mkOpenAI (API_KEY config) (API_BASE config))
                (OPENAI_MODEL config) pn w) as (texts & Hlen & Hself & Hcalls & _).
    destruct (run create _) as [r st'] eqn:E. cbn [snd] in Hself, Hcalls.
    exists r, (self st'), (world st'), texts. eexists.
    split; [reflexivity|]. rewrite Hself. split; [reflexivity|]. split; [exact Hlen|].
    split; [exact Hcalls|].
    destruct texts as [|t1 [|t2 [|t3 [|t4 [|t5 [|t6 texts]]]]]];
      cbn in Hlen; try lia; reflexivity.
  - intros k deps Hk.
    destruct k as [|[|[|[|[|k]]]]]; cbn in Hk;
      [ injection Hk as <- .. | destruct k; discriminate Hk ].
    all: split; [repeat constructor|].
    all: split;
      [ intros texts texts' H; rewrite !user_prompts_nth_error;
        repeat (rewrite H by (cbn; tauto)); reflexivity
      | intros texts i Hi; rewrite user_prompts_nth_error; eexists;
        (split; [reflexivity|]);
        cbn in Hi; repeat (destruct Hi as [<-|Hi]; [|]); try contradiction;
        unfold user_prompt_customer_analysis, user_prompt_strategy,
          user_prompt_campaigns, user_prompt_quality; find_substring ].
Qed.

(** ** The run, phase after phase *)

Lemma for_each_app {A : Type} (l1 l2 : list A) (f : A -> M (State SvcState) unit)
    (st : State SvcState) :
  for_each (l1 ++ l2) f st = (for_each l1 f ;; for_each l2 f) st.
Proof.
  revert st. induction l1 as [|x l1 IH]; intros st; cbn [for_each app].
  - reflexivity.
  - unfold bind. destruct (f x st) as [[[]|e] st1]; [|reflexivity].
    now rewrite IH.
Qed.

Lemma firstn_S_nth_error {A : Type} (l : list A) (n : nat) (x : A) :
  nth_error l n = Some x -> firstn (S n) l = (firstn n l ++ [x])%list.
Proof.
  revert l. induction n as [|n IH]; intros [|y l] H; try discriminate.
  - now injection H as ->.
  - cbn [firstn app]. f_equal. now apply IH.
Qed.

Lemma run_upto_S n key (ph : M (State SvcState) unit) (s0 : State SvcState) :
  nth_error (phases create) n = Some (key, ph) ->
  run_upto create (S n) s0 = (run_upto create n ;; ph) s0.
Proof.
  intros Hn. destruct s0 as [o [out cl sv ck]].
  unfold run_upto. rewrite (firstn_S_nth_error _ _ _ Hn).
  run_monad. rewrite for_each_app. unfold bind.
  destruct (for_each (firstn n (phases create)) snd _) as [[[]|e] s1]; [|reflexivity].
  cbn [for_each snd]. unfold bind, ret.
  destruct (ph s1) as [[[]|e] s2]; reflexivity.
Qed.

Lemma run_upto_0 c m pn (w : World SvcState) :
  run_upto create 0 (mkState (mkWorkflow c [] m pn) w) =
  (Return tt,
   mkState (mkWorkflow c [] m pn)
     (mkWorld (stdout w ++ banner pn m (clock w)) (calls w) (service w) (clock w))).
Proof.
  destruct w as [out cl sv ck]. unfold run_upto. cbn [firstn for_each]. run_monad.
  unfold banner, header. rewrite <- !app_assoc. reflexivity.
Qed.

Lemma run_as_phases (st : State SvcState) :
  run create st = (run_upto create 5 ;; print_summary) st.
Proof.
  destruct st as [o [out cl sv ck]].
  unfold run, run_upto. cbn [firstn phases for_each snd]. run_monad.
  destruct (phase_market_research create _) as [[[]|e] s1]; [|reflexivity].
  destruct (phase_customer_analysis create _) as [[[]|e] s2]; [|reflexivity].
  destruct (phase_strategy create _) as [[[]|e] s3]; [|reflexivity].
  destruct (phase_campaigns create _) as [[[]|e] s4]; [|reflexivity].
  destruct (phase_quality create _) as [[[]|e] s5]; reflexivity.
Qed.

(** What one phase does to [self.outputs]. *)
Lemma phase_outputs n key (ph : M (State SvcState) unit) (st : State SvcState) :
  nth_error (phases create) n = Some (key, ph) ->
  (fst (ph st) = Return tt /\
   exists text,
     self (snd (ph st)) = with_outputs (self st) (dict_setitem (outputs (self st)) key text)) \/
  (exists e, fst (ph st) = Raise e /\ self (snd (ph st)) = self st).
Proof.
  intros Hn. destruct (phases_are_results _ _ _ Hn) as (_ & title & build & Heq & _).
  rewrite Heq. apply phase_result_self.
Qed.

(** After [n] completed phases of a run on a new instance, the keys are the
    first [n] phase keys and the other attributes are those of the
    constructor. *)
Lemma run_upto_keys c m pn (w : World SvcState) n (st : State SvcState) :
  n <= 5 ->
  run_upto create n (mkState (mkWorkflow c [] m pn) w) = (Return tt, st) ->
  keys (outputs (self st)) = firstn n phase_keys /\
  self st = mkWorkflow c (outputs (self st)) m pn.
Proof.
  revert st. induction n as [|n IH]; intros st Hn Hrun.
  - rewrite run_upto_0 in Hrun. injection Hrun as <-. now split.
  - assert (Hlt : n < length (phases create)) by (cbn; lia).
    destruct (nth_error (phases create) n) as [[key ph]|] eqn:Hph;
      [|apply nth_error_None in Hph; lia].
    rewrite (run_upto_S _ _ _ _ Hph) in Hrun. unfold bind in Hrun.
    destruct (run_upto create n _) as [[[]|e] s1]; [|discriminate].
    destruct (IH s1 ltac:(lia) eq_refl) as [Hkeys Hself].
    destruct (phases_are_results _ _ _ Hph) as [Hkey _].
    destruct (phase_outputs n key ph s1 Hph) as [[_ [text Ht]]|[e [He _]]];
      rewrite Hrun in *; [|discriminate He]. cbn [snd] in Ht.
    rewrite Ht, Hself. unfold with_outputs. cbn [outputs client model product_name].
    split; [|reflexivity].
    rewrite dict_setitem_fresh.
    + unfold keys in *. rewrite map_app, Hkeys. cbn [map fst].
      symmetry. now apply firstn_S_nth_error.
    + apply dict_getitem_None. rewrite Hkeys.
      destruct n as [|[|[|[|[|n]]]]]; try lia; injection Hkey as <-; cbn;
        intuition discriminate.
Qed.

Lemma phase_appends c m pn (w : World SvcState) n key (ph : M (State SvcState) unit)
    (st : State SvcState) :
  nth_error (phases create) n = Some (key, ph) ->
  run_upto create n (mkState (mkWorkflow c [] m pn) w) = (Return tt, st) ->
  ~ In key (keys (outputs (self st))) /\
  ((fst (ph st) = Return tt /\
    exists text, outputs (self (snd (ph st))) = (outputs (self st) ++ [(key, text)])%list) \/
   (exists e, fst (ph st) = Raise e /\ outputs (self (snd (ph st))) = outputs (self st))).
Proof.
  intros Hph Hrun.
  assert (Hlt : n < length (phases create)) by (apply nth_error_Some; congruence).
  cbn in Hlt.
  destruct (run_upto_keys c m pn w n st ltac:(lia) Hrun) as [Hkeys _].
  destruct (phases_are_results _ _ _ Hph) as [Hkey _].
  assert (Hfresh : ~ In key (keys (outputs (self st)))).
  { rewrite Hkeys.
    destruct n as [|[|[|[|[|n]]]]]; try lia; injection Hkey as <-; cbn;
      intuition discriminate. }
  split; [exact Hfresh|].
  destruct (phase_outputs n key ph st Hph) as [[Hr [text Ht]]|[e [He Hs]]].
  - left. split; [exact Hr|]. exists text. rewrite Ht. unfold with_outputs. cbn [outputs].
    apply dict_setitem_fresh. now apply dict_getitem_None.
  - right. exists e. split; [exact He | now rewrite Hs].
Qed.

(** C7. [run] is its five phases in order followed by the summary.  In a run
    on a new instance, the key of the phase that comes after [n] completed
    phases is not yet bound; if the phase returns, [self.outputs] is what it
    was with one entry for this key added at the end, and if it raises,
    [self.outputs] is what it was.  So [self.outputs] after [n'] phases
    extends [self.outputs] after [n <= n'] phases by [n' - n] entries.  The
    summary step returns and leaves the instance as it was.  In any state, a
    phase leaves the binding of every key other than its own as it was. *)
Theorem outputs_grow_by_one_entry_per_phase
    (c : OpenAI) (m pn : string) (w : World SvcState) :
  (forall st, run create st = (run_upto create 5 ;; print_summary) st) /\
  (forall n key ph st,
     nth_error (phases create) n = Some (key, ph) ->
     run_upto create n (mkState (mkWorkflow c [] m pn) w) = (Return tt, st) ->
     ~ In key (keys (outputs (self st))) /\
     ((fst (ph st) = Return tt /\
       exists text,
         outputs (self (snd (ph st))) = (outputs (self st) ++ [(key, text)])%list) \/
      (exists e, fst (ph st) = Raise e /\
                 outputs (self (snd (ph st))) = outputs (self st)))) /\
  (forall n n' st st',
     n <= n' <= 5 ->
     run_upto create n (mkState (mkWorkflow c [] m pn) w) = (Return tt, st) ->
     run_upto create n' (mkState (mkWorkflow c [] m pn) w) = (Return tt, st') ->
     exists added,
       outputs (self st') = (outputs (self st) ++ added)%list /\ length added = n' - n) /\
  (forall st : State SvcState,
     fst (print_summary st) = Return tt /\ self (snd (print_summary st)) = self st) /\
  (forall n key ph st key',
     nth_error (phases create) n = Some (key, ph) ->
     key' <> key ->
     dict_getitem (outputs (self (snd (ph st)))) key' =
     dict_getitem (outputs (self st)) key').
Proof.
  split; [exact run_as_phases|].
  split; [intros n key ph st; apply phase_appends|].
  split.
  - intros n n' st st' [Hle Hn'] Hrun. revert st'.
    induction Hle as [|k Hle IH]; intros st' Hrun'.
    + rewrite Hrun in Hrun'. injection Hrun' as <-.
      exists []. now rewrite app_nil_r, Nat.sub_diag.
    + assert (Hlt : k < length (phases create)) by (cbn; lia).
      destruct (nth_error (phases create) k) as [[key ph]|] eqn:Hph;
        [|apply nth_error_None in Hph; lia].
      rewrite (run_upto_S _ _ _ _ Hph) in Hrun'. unfold bind in Hrun'.
      destruct (run_upto create k _) as [[[]|e] s1] eqn:Hk; [|discriminate].
      destruct (IH ltac:(lia) s1 eq_refl) as (added & Hadd & Hlen).
      destruct (phase_appends c m pn w k key ph s1 Hph Hk)
        as [_ [[_ [text Ht]]|[e [He _]]]];
        rewrite Hrun' in *; [|discriminate He]. cbn [snd] in Ht.
      exists (added ++ [(key, text)])%list. rewrite Ht, Hadd, <- app_assoc.
      split; [reflexivity|]. rewrite length_app. cbn [length]. lia.
  - split; [intros st; now rewrite print_summary_eq|].
    intros n key ph st key' Hph Hne.
    destruct (phase_outputs n key ph st Hph) as [[_ [text ->]]|[e [_ ->]]];
      [|reflexivity].
    unfold with_outputs. cbn [outputs].
    apply dict_getitem_setitem_other. congruence.
Qed.

(** ** Runs against a deterministic service *)

Section Deterministic.

Variable f : OpenAI -> Request.t -> Outcome ChatCompletion.
Hypothesis create_deterministic : deterministic create f.

Lemma create_eq c s req : create c s req = (fst (create c s req), f c req).
Proof. rewrite <- (create_deterministic c s req). apply surjective_pairing. Qed.

Lemma world_independent_bind {A B : Type}
    (m : M (State SvcState) A) (k : A -> M (State SvcState) B) :
  world_independent m -> (forall a, world_independent (k a)) ->
  world_independent (bind m k).
Proof.
  intros Hm Hk st1 st2 Hst. unfold bind.
  destruct (Hm st1 st2 Hst) as [Hr Hs].
  destruct (m st1) as [[a1|e1] s1], (m st2) as [[a2|e2] s2]; cbn [fst snd] in *;
    try discriminate.
  - injection Hr as <-. now apply Hk.
  - injection Hr as ->. now split.
Qed.

Lemma world_independent_print (s : string) :
  world_independent (print (SvcState := SvcState) s).
Proof. intros [o1 [? ? ? ?]] [o2 [? ? ? ?]] H. now split. Qed.

Lemma world_independent_get_self : world_independent (get_self (SvcState := SvcState)).
Proof. intros [o1 w1] [o2 w2] H. cbn in *. now subst. Qed.

(** The clock is read only to be printed. *)
Lemma world_independent_clock {B : Type} (g : string -> string)
    (k : M (State SvcState) B) :
  world_independent k ->
  world_independent (now <- in_world datetime_now ;; print (g now) ;; k).
Proof.
  intros Hk [o1 [out1 cl1 sv1 ck1]] [o2 [out2 cl2 sv2 ck2]] H.
  run_monad. apply Hk. exact H.
Qed.

Lemma world_independent_phase_result title key
    (build : MarketingStrategyWorkflow -> Outcome Request.t) :
  world_independent (fun st => phase_result create title key (build (self st)) st).
Proof.
  intros [o1 [out1 cl1 sv1 ck1]] [o2 [out2 cl2 sv2 ck2]] H. cbn [self] in H. subst o2.
  unfold phase_result. cbn [self world service].
  destruct (build o1) as [q|e]; [|now split].
  rewrite (create_eq _ sv1), (create_eq _ sv2).
  destruct (f (client o1) q) as [resp|e]; [destruct (response_text resp)|]; now split.
Qed.

Lemma world_independent_ext {A : Type} (m m' : M (State SvcState) A) :
  (forall st, m st = m' st) -> world_independent m' -> world_independent m.
Proof. intros E H st1 st2 Hst. rewrite !E. now apply H. Qed.

Lemma world_independent_phase n key (ph : M (State SvcState) unit) :
  nth_error (phases create) n = Some (key, ph) -> world_independent ph.
Proof.
  intros Hph. destruct (phases_are_results _ _ _ Hph) as (_ & title & build & Heq & _).
  apply (world_independent_ext _ _ Heq). apply world_independent_phase_result.
Qed.

Lemma world_independent_print_summary :
  world_independent (print_summary (SvcState := SvcState)).
Proof. intros st1 st2 H. rewrite !print_summary_eq. now split. Qed.

Lemma world_independent_run : world_independent (run create).
Proof.
  unfold run.
  repeat match goal with
  | |- world_independent (bind (in_world datetime_now) _) =>
      apply (world_independent_clock (fun now => "Start Time: " ++ now ++ "
"))
  | |- world_independent (bind _ _) => apply world_independent_bind; [|intros ?]
  | |- world_independent (print _) => apply world_independent_print
  | |- world_independent get_self => apply world_independent_get_self
  | |- world_independent print_summary => apply world_independent_print_summary
  | |- world_independent (phase_market_research _) =>
      apply (world_independent_phase 0 "market_research"); reflexivity
  | |- world_independent (phase_customer_analysis _) =>
      apply (world_independent_phase 1 "customer_analysis"); reflexivity
  | |- world_independent (phase_strategy _) =>
      apply (world_independent_phase 2 "strategy"); reflexivity
  | |- world_independent (phase_campaigns _) =>
      apply (world_independent_phase 3 "campaigns"); reflexivity
  | |- world_independent (phase_quality _) =>
      apply (world_independent_phase 4 "quality"); reflexivity
  end.
Qed.

Ltac first_run_step :=
  phase_step; rewrite create_eq; cbv beta iota;
  let F := fresh "F" in
  let T := fresh "T" in
  match goal with
  | |- context [f ?c ?q] => destruct (f c q) as [?r|?e] eqn:F
  end;
  cbv beta iota;
  [ match goal with
    | |- context [response_text ?x] => destruct (response_text x) as [?t|] eqn:T
    end | ];
  cbv beta iota.

Ltac second_run :=
  unfold run; run_monad;
  repeat (phase_step; try rewrite create_eq; cbv beta iota;
          repeat match goal with
                 | H : f _ _ = _ |- _ => rewrite H
                 | H : response_text _ = _ |- _ => rewrite H
                 end);
  split; reflexivity.

(** Calling [run] again on the instance that a first run on a new instance
    left behind ends as the first run did and leaves [self.outputs] as it
    was. *)
Lemma rerun_outputs c m pn (w w' : World SvcState) r1 st1 :
  run create (mkState (mkWorkflow c [] m pn) w) = (r1, st1) ->
  fst (run create (mkState (self st1) w')) = r1 /\
  outputs (self (snd (run create (mkState (self st1) w')))) = outputs (self st1).
Proof.
  destruct w as [out cl sv ck], w' as [out' cl' sv' ck'].
  unfold run at 1. run_monad.
  first_run_step; [ | intros E; injection E as <- <-; second_run ..].
  first_run_step; [ | intros E; injection E as <- <-; second_run ..].
  first_run_step; [ | intros E; injection E as <- <-; second_run ..].
  first_run_step; [ | intros E; injection E as <- <-; second_run ..].
  first_run_step; [ | intros E; injection E as <- <-; second_run ..].
  phase_step. intros E. injection E as <- <-. second_run.
Qed.

End Deterministic.

(** C8. Against a service whose answer is a function of the client and the
    request, two runs with the same constructor argument end with the same
    outcome and the same [self.outputs], whatever the console, the clock and
    the state of the service when each run starts.  Calling [run] a second
    time on the instance of the first run also ends as the first run did, with
    [self.outputs] as the first run left it. *)
Theorem runs_against_deterministic_service_agree
    (f : OpenAI -> Request.t -> Outcome ChatCompletion) :
  deterministic create f ->
  (forall arg w1 w2,
     fst (fst (construct_and_run create config arg w1)) =
       fst (fst (construct_and_run create config arg w2)) /\
     option_map outputs (snd (fst (construct_and_run create config arg w1))) =
       option_map outputs (snd (fst (construct_and_run create config arg w2)))) /\
  (forall c m pn w w',
     fst (run create
            (mkState (self (snd (run create (mkState (mkWorkflow c [] m pn) w)))) w')) =
       fst (run create (mkState (mkWorkflow c [] m pn) w)) /\
     outputs (self (snd (run create
            (mkState (self (snd (run create (mkState (mkWorkflow c [] m pn) w)))) w')))) =
       outputs (self (snd (run create (mkState (mkWorkflow c [] m pn) w))))).
Proof.
  intros Hdet. split.
  - intros arg w1 w2. unfold construct_and_run.
    destruct (validate_setup config) eqn:Hv.
    + rewrite !(init_valid _ _ Hv).
      set (o := mkWorkflow _ _ _ _).
      destruct (world_independent_run f Hdet (mkState o w1) (mkState o w2) eq_refl)
        as [Hr Hs].
      destruct (run create (mkState o w1)) as [r1 s1].
      destruct (run create (mkState o w2)) as [r2 s2].
      cbn [fst snd option_map] in *. now rewrite Hr, Hs.
    + rewrite !(init_invalid _ _ Hv). now split.
  - intros c m pn w w'.
    destruct (run create (mkState (mkWorkflow c [] m pn) w)) as [r1 st1] eqn:E.
    exact (rerun_outputs f Hdet c m pn w w' r1 st1 E).
Qed.


(** ** Runs on any instance *)

Ltac lookups :=
  repeat first
    [ rewrite dict_getitem_setitem_same
    | rewrite dict_getitem_setitem_other by discriminate ].

Ltac any_run_step E T :=
  phase_step; lookups;
  match goal with
  | |- context [create ?c ?s ?q] =>
      destruct (create c s q) as [?s [?r|?e]] eqn:E
  end;
  [ match goal with
    | |- context [response_text ?x] => destruct (response_text x) as [?t|] eqn:T
    end | ].

Ltac stopped texts :=
  exists texts; cbn [length];
  split; [lia|]; split; [reflexivity|];
  split; [cbn; rewrite <- ?app_assoc; reflexivity|];
  right; split; [lia|];
  do 4 eexists; split; [reflexivity|]; split; [reflexivity|];
  first [ left; eassumption
        | right; split; [reflexivity|]; eexists; split; eassumption ].

(** A run on any instance, whatever the service does: the texts of the
    phases that completed are assigned over the outputs that were there; the
    requests are those of a run on a new instance with these texts; the run
    returns when five texts were stored and otherwise raises what the service
    raised on the last request, or [IndexError] when the last response had no
    choice. *)
Lemma run_any (st : State SvcState) :
  exists texts : list string,
    length texts <= 5 /\
    self (snd (run create st)) =
      with_outputs (self st) (store_all (outputs (self st)) (combine phase_keys texts)) /\
    calls (world (snd (run create st))) =
      (calls (world st) ++
       firstn (S (length texts))
         (requests (model (self st)) (product_name (self st))
            (nth 0 texts "") (nth 1 texts "") (nth 2 texts "") (nth 3 texts "")))%list /\
    ((fst (run create st) = Return tt /\ length texts = 5) \/
     (length texts < 5 /\
      exists e q s s',
        fst (run create st) = Raise e /\
        nth_error
          (requests (model (self st)) (product_name (self st))
             (nth 0 texts "") (nth 1 texts "") (nth 2 texts "") (nth 3 texts ""))
          (length texts) = Some q /\
        (create (client (self st)) s q = (s', Raise e) \/
         (e = IndexError /\
          exists resp,
            create (client (self st)) s q = (s', Return resp) /\
            response_text resp = None)))).
Proof.
  destruct st as [[c d m pn] [out cl sv ck]].
  unfold run. run_monad.
  any_run_step E1 T1; [ | stopped (@nil string) ..].
  any_run_step E2 T2; [ | stopped [t] ..].
  any_run_step E3 T3; [ | stopped [t; t0] ..].
  any_run_step E4 T4; [ | stopped [t; t0; t1] ..].
  any_run_step E5 T5; [ | stopped [t; t0; t1; t2] ..].
  phase_step.
  exists [t; t0; t1; t2; t3]. cbn [length].
  split; [lia|]. split; [reflexivity|].
  split; [cbn; rewrite <- ?app_assoc; reflexivity|].
  left. split; reflexivity.
Qed.

(** ** Further properties of the phases and of the run *)

Ltac phase_cases n Hph Hks Ht :=
  destruct n as [|[|[|[|[|n]]]]]; cbn in Hph, Hks, Ht;
  [ injection Hph as <- <-; injection Hks as <-; injection Ht as <- ..
  | destruct n; discriminate Hph ].

Ltac as_phase_result :=
  first [ rewrite phase_market_research_eq; unfold build_market_research
        | rewrite phase_customer_analysis_eq; unfold build_customer_analysis
        | rewrite phase_strategy_eq; unfold build_strategy
        | rewrite phase_campaigns_eq; unfold build_campaigns
        | rewrite phase_quality_eq; unfold build_quality ];
  unfold lookup, first_missing; cbn [find].

(** A phase called while an output that it reads is missing: the header is
    printed, then the lookup of the first missing key, in reading order,
    raises [KeyError]; the service receives nothing and the instance is as it
    was.  When nothing that it reads is missing, the phase sends exactly one
    request. *)
Theorem phase_raises_KeyError_for_first_missing_output
    (n : nat) (key : string) (ph : M (State SvcState) unit) (ks : list string)
    (title : string) (st : State SvcState) :
  nth_error (phases create) n = Some (key, ph) ->
  nth_error phase_reads n = Some ks ->
  nth_error phase_titles n = Some title ->
  (forall k,
     first_missing (outputs (self st)) ks = Some k ->
     ph st =
     (Raise (KeyError k),
      mkState (self st)
        (mkWorld (stdout (world st) ++ header title) (calls (world st))
           (service (world st)) (clock (world st))))) /\
  (first_missing (outputs (self st)) ks = None ->
   exists q, calls (world (snd (ph st))) = (calls (world st) ++ [q])%list).
Proof.
  intros Hph Hks Ht.
  phase_cases n Hph Hks Ht.
  all: as_phase_result.
  all: repeat destruct (dict_getitem _ _).
  all: split; [intros k Hk; try discriminate Hk; injection Hk as <-; reflexivity|].
  all: intros Hnone; try discriminate Hnone.
  all: rewrite phase_result_calls; eexists; reflexivity.
Qed.


Lemma store_all_phase_key (d : dict string) (texts : list string) (i : nat) (key : string) :
  length texts <= 5 ->
  nth_error phase_keys i = Some key ->
  i < length texts ->
  dict_getitem (store_all d (combine phase_keys texts)) key = Some (nth i texts "").
Proof.
  intros Hlen Hkey Hi.
  destruct texts as [|t1 [|t2 [|t3 [|t4 [|t5 [|t6 texts]]]]]]; cbn [length] in Hlen, Hi;
    try lia.
  all: destruct i as [|[|[|[|[|i]]]]]; try lia; injection Hkey as <-.
  all: cbn [store_all combine phase_keys fold_left fst snd nth]; lookups; reflexivity.
Qed.

Lemma store_all_other_key (d : dict string) (texts : list string) (k : string) :
  ~ In k phase_keys ->
  dict_getitem (store_all d (combine phase_keys texts)) k = dict_getitem d k.
Proof.
  intros Hk. unfold store_all.
  assert (H : forall (kvs : list (string * string)) (d' : dict string),
             (forall kv, In kv kvs -> fst kv <> k) ->
             dict_getitem (fold_left (fun d0 kv => dict_setitem d0 (fst kv) (snd kv)) kvs d') k =
             dict_getitem d' k).
  { induction kvs as [|kv kvs IH]; intros d' Hne; cbn [fold_left]; [reflexivity|].
    rewrite IH by (intros kv' Hin; apply Hne; now right).
    apply dict_getitem_setitem_other. apply Hne. now left. }
  apply H. intros [k' v] Hin. cbn [fst]. apply in_combine_l in Hin. congruence.
Qed.

(** [run] on any instance, new or used.  The texts of the phases that
    complete are assigned over the outputs that were there, a bound key
    keeping its place; the requests are, in phase order, those built from the
    texts of this very run, so that no phase reads an output left by an
    earlier run; one request is sent for each phase that was started and the
    run returns exactly when five texts were stored.  Each phase key that was
    stored is then bound to the text of this run, and the keys that are not
    phase keys are bound as before. *)
Theorem run_on_any_instance_overwrites_and_reads_its_own_outputs (st : State SvcState) :
  exists texts : list string,
    length texts <= 5 /\
    self (snd (run create st)) =
      with_outputs (self st) (store_all (outputs (self st)) (combine phase_keys texts)) /\
    calls (world (snd (run create st))) =
      (calls (world st) ++
       firstn (S (length texts))
         (requests (model (self st)) (product_name (self st))
            (nth 0 texts "") (nth 1 texts "") (nth 2 texts "") (nth 3 texts "")))%list /\
    (fst (run create st) = Return tt <-> length texts = 5) /\
    (forall i key,
       nth_error phase_keys i = Some key -> i < length texts ->
       dict_getitem (outputs (self (snd (run create st)))) key = Some (nth i texts "")) /\
    (forall k,
       ~ In k phase_keys ->
       dict_getitem (outputs (self (snd (run create st)))) k =
       dict_getitem (outputs (self st)) k).
Proof.
  destruct (run_any st) as (texts & Hlen & Hself & Hcalls & Hout).
  exists texts. split; [exact Hlen|]. split; [exact Hself|]. split; [exact Hcalls|].
  split; [|split].
  - destruct Hout as [[-> ->]|(Hlt & e & q & s & s' & -> & _)].
    + now split.
    + split; [discriminate | lia].
  - intros i key Hkey Hi. rewrite Hself. unfold with_outputs. cbn [outputs].
    now apply store_all_phase_key.
  - intros k Hk. rewrite Hself. unfold with_outputs. cbn [outputs].
    now apply store_all_other_key.
Qed.

(** A second run that fails in its third phase, on an instance that holds
    the five outputs R1 to R5 of a first run: the first two entries are those
    of the second run, the last three are still those of the first. *)
Theorem failed_second_run_leaves_mixed_outputs
    (c : OpenAI) (m pn : string) (w : World SvcState)
    (R1 R2 R3 R4 R5 S1 S2 : string) (s2 s3 : SvcState) (e : PyExc) :
  service_returns create c (service w)
    [request_market_research m pn; request_customer_analysis m S1] [S1; S2] s2 ->
  create c s2 (request_strategy m pn S1 S2) = (s3, Raise e) ->
  fst (run create
         (mkState (mkWorkflow c (combine phase_keys [R1; R2; R3; R4; R5]) m pn) w)) =
    Raise e /\
  outputs (self (snd (run create
         (mkState (mkWorkflow c (combine phase_keys [R1; R2; R3; R4; R5]) m pn) w)))) =
    combine phase_keys [S1; S2; R3; R4; R5].
Proof.
  destruct w as [out cl sv ck].
  intros (s1 & r1 & E1 & T1 & s2' & r2 & E2 & T2 & ->) E3.
  cbn [service] in E1.
  unfold run. run_monad. cbn [combine phase_keys].
  phase_step. rewrite E1, T1.
  phase_step. rewrite E2, T2.
  phase_step. rewrite E3.
  split; reflexivity.
Qed.

Lemma response_text_None (resp : ChatCompletion) :
  response_text resp = None -> choices resp = [].
Proof. unfold response_text. now destruct (choices resp). Qed.

(** When [run] raises, on any instance, the exception is the one that the
    service raised on the last request sent, or it is [IndexError] and the
    response to the last request had no choice.  In particular no lookup in
    [self.outputs] fails during a run: what a phase reads has been written
    by an earlier phase of the same run. *)
Theorem run_raises_only_what_the_service_caused (st : State SvcState) (e : PyExc) :
  fst (run create st) = Raise e ->
  exists before q s s',
    calls (world (snd (run create st))) = (before ++ [q])%list /\
    (create (client (self st)) s q = (s', Raise e) \/
     (e = IndexError /\
      exists resp,
        create (client (self st)) s q = (s', Return resp) /\ choices resp = [])).
Proof.
  intros He.
  destruct (run_any st) as (texts & Hlen & _ & Hcalls & Hout).
  destruct Hout as [[Hr _]|(Hlt & e' & q & s & s' & Hr & Hq & Hcause)];
    pose proof (eq_trans (eq_sym Hr) He) as Hsame; [discriminate Hsame|].
  injection Hsame as ->.
  rewrite (firstn_S_nth_error _ _ _ Hq), app_assoc in Hcalls.
  exists (calls (world st) ++ firstn (length texts)
            (requests (model (self st)) (product_name (self st))
               (nth 0 texts "") (nth 1 texts "") (nth 2 texts "") (nth 3 texts "")))%list,
    q, s, s'.
  split; [exact Hcalls|].
  destruct Hcause as [H|(-> & resp & H & Ht)]; [now left|].
  right. split; [reflexivity|]. exists resp. split; [exact H|].
  now apply response_text_None.
Qed.

(** The phases and [run] assign to [self.outputs] only: the client, the
    model and the product name of the instance are never changed, in any
    state and whatever the service does. *)
Theorem phases_and_run_change_only_outputs :
  (forall n key (ph : M (State SvcState) unit) st,
     nth_error (phases create) n = Some (key, ph) ->
     client (self (snd (ph st))) = client (self st) /\
     model (self (snd (ph st))) = model (self st) /\
     product_name (self (snd (ph st))) = product_name (self st)) /\
  (forall st,
     client (self (snd (run create st))) = client (self st) /\
     model (self (snd (run create st))) = model (self st) /\
     product_name (self (snd (run create st))) = product_name (self st)).
Proof.
  split.
  - intros n key ph st Hph.
    destruct (phase_outputs n key ph st Hph) as [[_ [text ->]]|[e [_ ->]]];
      repeat split.
  - intros st. destruct (run_any st) as (texts & _ & -> & _). repeat split.
Qed.

(** Every request of a run names the model of the instance, and a run sends
    at least one request and at most five: a request is never repeated.  For
    an instance built by the constructor, the model is [Config.OPENAI_MODEL]. *)
Theorem every_request_names_the_model :
  (forall st,
     exists sent,
       calls (world (snd (run create st))) = (calls (world st) ++ sent)%list /\
       Forall (fun q => Request.model q = model (self st)) sent /\
       1 <= length sent <= 5) /\
  (forall arg w,
     validate_setup config = true ->
     exists sent,
       calls (snd (construct_and_run create config arg w)) = (calls w ++ sent)%list /\
       Forall (fun q => Request.model q = OPENAI_MODEL config) sent).
Proof.
  assert (H : forall st,
             exists sent,
               calls (world (snd (run create st))) = (calls (world st) ++ sent)%list /\
               Forall (fun q => Request.model q = model (self st)) sent /\
               1 <= length sent <= 5).
  { intros st. destruct (run_any st) as (texts & Hlen & _ & Hcalls & _).
    eexists. split; [exact Hcalls|].
    destruct texts as [|t1 [|t2 [|t3 [|t4 [|t5 [|t6 texts]]]]]];
      cbn [length] in Hlen; try lia.
    all: cbn [firstn requests length]; split; [repeat constructor | lia]. }
  split; [exact H|].
  intros arg w Hv. unfold construct_and_run. rewrite (init_valid _ _ Hv).
  match goal with
  | |- context [run create ?st] =>
      destruct (H st) as (sent & Hcalls & Hall & _); destruct (run create st) as [r st']
  end.
  exists sent. split; [exact Hcalls | exact Hall].
Qed.


(** The console of a complete run.  With a valid configuration and a service
    that answers the five requests with R1 to R5, the run prints the banner,
    then for each phase its header followed at once by its text, then the
    summary; it returns with the five outputs, the five requests in the log
    and the service in the state that the fifth call left. *)
Theorem complete_run_transcript
    (product_name : string) (w : World SvcState) (R1 R2 R3 R4 R5 : string)
    (s_end : SvcState) :
  validate_setup config = true ->
  service_returns create (mkOpenAI (API_KEY config) (API_BASE config)) (service w)
    (requests (OPENAI_MODEL config) product_name R1 R2 R3 R4) [R1; R2; R3; R4; R5] s_end ->
  construct_and_run create config (Some product_name) w =
  (Return tt,
   Some (mkWorkflow (mkOpenAI (API_KEY config) (API_BASE config))
           (combine phase_keys [R1; R2; R3; R4; R5]) (OPENAI_MODEL config) product_name),
   mkWorld
     (stdout w ++ banner product_name (OPENAI_MODEL config) (clock w) ++
      header "PHASE 1: MARKET RESEARCH" ++ [R1] ++
      header "PHASE 2: CUSTOMER INSIGHTS" ++ [R2] ++
      header "PHASE 3: MARKETING STRATEGY" ++ [R3] ++
      header "PHASE 4: CAMPAIGN DESIGN" ++ [R4] ++
      header "PHASE 5: QUALITY REVIEW" ++ [R5] ++
      summary_lines (combine phase_keys [R1; R2; R3; R4; R5]))
     (calls w ++ requests (OPENAI_MODEL config) product_name R1 R2 R3 R4)
     s_end (clock w)).
Proof.
  intros Hv Hs. unfold construct_and_run. rewrite (init_valid _ _ Hv).
  rewrite (run_complete _ _ _ _ _ _ _ _ _ _ Hs). reflexivity.
Qed.
End Properties.

(** ** The Widget X scenario *)

(** The scripted service answers R1 to R5: the run for Widget X stores them
    in phase order. *)
Lemma widget_run_stores_R1_to_R5 :
  validate_setup widget_config = true /\
  service_returns scripted_create widget_client (service widget_world)
    (requests "test-model" "Widget X" "R1" "R2" "R3" "R4") ["R1"; "R2"; "R3"; "R4"; "R5"] [] /\
  exists o w',
    construct_and_run scripted_create widget_config (Some "Widget X") widget_world =
      (Return tt, Some o, w') /\
    items (outputs o) =
      [("market_research", "R1"); ("customer_analysis", "R2"); ("strategy", "R3");
       ("campaigns", "R4"); ("quality", "R5")].
Proof.
  assert (Hs : service_returns scripted_create widget_client (service widget_world)
                 (requests "test-model" "Widget X" "R1" "R2" "R3" "R4")
                 ["R1"; "R2"; "R3"; "R4"; "R5"] []).
  { cbn. repeat (eexists; eexists; split; [reflexivity | split; [reflexivity|]]).
    reflexivity. }
  split; [reflexivity|]. split; [exact Hs|].
  destruct (run_stores_responses_in_phase_order scripted_create widget_config "Widget X"
              widget_world "R1" "R2" "R3" "R4" "R5" [] eq_refl Hs)
    as (o & w' & Hrun & Hitems & _).
  exists o, w'. split; [exact Hrun | exact Hitems].
Defined.

(** The user prompts of the run for Widget X. *)
Lemma widget_run_user_prompts :
  validate_setup widget_config = true /\
  exists r o w' texts sent,
    construct_and_run scripted_create widget_config (Some "Widget X") widget_world =
      (r, Some o, w') /\
    outputs o = combine phase_keys texts /\
    length texts <= 5 /\
    calls w' = (calls widget_world ++ sent)%list /\
    map user_prompt_of sent = map Some (firstn (S (length texts)) (user_prompts texts)).
Proof.
  split; [reflexivity|].
  exact (proj1 (user_prompts_read_earlier_outputs_only scripted_create widget_config)
           (Some "Widget X") widget_world eq_refl).
Defined.

(** With a configuration that does not validate, nothing reaches the service. *)
Lemma broken_config_makes_no_call :
  validate_setup broken_config = false /\
  construct_and_run scripted_create broken_config (Some "Widget X") widget_world =
  (Raise (SystemExit 1), None,
   mkWorld ["ERROR: Configuration validation failed!"] [] widget_script
     "2025-01-01 00:00:00").
Proof.
  split; [reflexivity|].
  exact (failed_validation_exits_before_any_call scripted_create broken_config
           (Some "Widget X") widget_world eq_refl).
Defined.

(** The service fails on its third call: two outputs, three requests. *)
Lemma failing_service_keeps_R1_and_R2 :
  validate_setup widget_config = true /\
  exists o w',
    construct_and_run scripted_create widget_config (Some "Widget X") failing_world =
      (Raise (OtherError "RateLimitError"), Some o, w') /\
    outputs o = [("market_research", "R1"); ("customer_analysis", "R2")] /\
    length (calls w') = 3.
Proof.
  split; [reflexivity|].
  destruct (service_error_in_phase_3_keeps_two_outputs scripted_create widget_config
              "Widget X" failing_world "R1" "R2"
              [Raise (OtherError "RateLimitError")] [] (OtherError "RateLimitError")
              eq_refl)
    as (o & w' & Hrun & Hout & Hcalls & _).
  - cbn. repeat (eexists; eexists; split; [reflexivity | split; [reflexivity|]]).
    reflexivity.
  - reflexivity.
  - exists o, w'. split; [exact Hrun|]. split; [exact Hout|]. now rewrite Hcalls.
Defined.

(** The parameters of the requests of the run for Widget X. *)
Lemma widget_run_parameters :
  exists sent,
    calls (world (snd (run scripted_create
                         (mkState (mkWorkflow widget_client [] "test-model" "Widget X")
                            widget_world)))) =
      (calls widget_world ++ sent)%list /\
    map parameters_of sent = firstn (length sent) phase_parameters /\
    length sent = 5.
Proof.
  destruct (proj2 (each_phase_sends_one_request_with_fixed_parameters scripted_create)
              widget_client "test-model" "Widget X" widget_world)
    as (sent & Hcalls & Hpar & _ & Hfive).
  exists sent. split; [exact Hcalls|]. split; [exact Hpar|]. apply Hfive. reflexivity.
Defined.

(** After two phases of the run for Widget X, the third phase adds the entry
    for the key strategy. *)
Lemma widget_strategy_is_appended :
  run_upto scripted_create 2 widget_new = (Return tt, widget_after_two_phases) /\
  ~ In "strategy" (keys (outputs (self widget_after_two_phases))) /\
  ((fst (phase_strategy scripted_create widget_after_two_phases) = Return tt /\
    exists text,
      outputs (self (snd (phase_strategy scripted_create widget_after_two_phases))) =
      (outputs (self widget_after_two_phases) ++ [("strategy", text)])%list) \/
   (exists e,
      fst (phase_strategy scripted_create widget_after_two_phases) = Raise e /\
      outputs (self (snd (phase_strategy scripted_create widget_after_two_phases))) =
      outputs (self widget_after_two_phases))).
Proof.
  assert (Hrun : run_upto scripted_create 2 widget_new =
                 (Return tt, widget_after_two_phases))
    by (vm_compute; reflexivity).
  split; [exact Hrun|].
  exact (proj1 (proj2 (outputs_grow_by_one_entry_per_phase scripted_create widget_client
                         "test-model" "Widget X" widget_world))
           2 "strategy" (phase_strategy scripted_create) widget_after_two_phases
           eq_refl Hrun).
Defined.

(** Two runs against the echo service, started in different worlds. *)
Lemma echo_runs_agree :
  deterministic (pure_create echo) echo /\
  option_map outputs
    (snd (fst (construct_and_run (pure_create echo) widget_config (Some "Widget X")
                 (echo_world 0)))) =
  option_map outputs
    (snd (fst (construct_and_run (pure_create echo) widget_config (Some "Widget X")
                 (echo_world 7)))).
Proof.
  assert (Hdet : deterministic (pure_create echo) echo) by (intros c s req; reflexivity).
  split; [exact Hdet|].
  exact (proj2 (proj1 (runs_against_deterministic_service_agree (pure_create echo)
                         widget_config echo Hdet)
                  (Some "Widget X") (echo_world 0) (echo_world 7))).
Defined.

(** ** Further scenarios *)

(** The second phase called on a new instance. *)
Lemma customer_analysis_on_new_instance :
  first_missing (outputs (self widget_new)) ["market_research"] = Some "market_research" /\
  phase_customer_analysis scripted_create widget_new =
  (Raise (KeyError "market_research"),
   mkState (self widget_new)
     (mkWorld (stdout (world widget_new) ++ header "PHASE 2: CUSTOMER INSIGHTS")
        (calls (world widget_new)) (service (world widget_new))
        (clock (world widget_new)))).
Proof.
  split; [reflexivity|].
  exact (proj1 (phase_raises_KeyError_for_first_missing_output scripted_create
                  1 "customer_analysis" (phase_customer_analysis scripted_create)
                  ["market_research"] "PHASE 2: CUSTOMER INSIGHTS" widget_new
                  eq_refl eq_refl eq_refl)
           "market_research" eq_refl).
Defined.


(** The run for Widget X in front of the scripted service, seen through the
    general description of a run. *)
Lemma widget_run_in_general :
  exists texts : list string,
    length texts <= 5 /\
    (fst (run scripted_create widget_new) = Return tt <-> length texts = 5) /\
    (forall k,
       ~ In k phase_keys ->
       dict_getitem (outputs (self (snd (run scripted_create widget_new)))) k =
       dict_getitem (outputs (self widget_new)) k).
Proof.
  destruct (run_on_any_instance_overwrites_and_reads_its_own_outputs scripted_create
              widget_new)
    as (texts & Hlen & _ & _ & Hret & _ & Hother).
  exists texts. split; [exact Hlen|]. split; [exact Hret | exact Hother].
Defined.

(** A second run on a used instance, in front of the failing service. *)
Lemma used_instance_after_failed_run :
  fst (run scripted_create widget_used) = Raise (OtherError "RateLimitError") /\
  outputs (self (snd (run scripted_create widget_used))) =
  combine phase_keys ["R1"; "R2"; "old 3"; "old 4"; "old 5"].
Proof.
  refine (failed_second_run_leaves_mixed_outputs scripted_create widget_client
            "test-model" "Widget X" failing_world
            "old 1" "old 2" "old 3" "old 4" "old 5" "R1" "R2"
            [Raise (OtherError "RateLimitError")] []
            (OtherError "RateLimitError") _ _).
  - cbn. repeat (eexists; eexists; split; [reflexivity | split; [reflexivity|]]).
    reflexivity.
  - reflexivity.
Defined.

(** The run in front of the failing service raises what the service raised. *)
Lemma failing_run_raises_the_service_error :
  fst (run scripted_create widget_failing) = Raise (OtherError "RateLimitError") /\
  exists before q s s',
    calls (world (snd (run scripted_create widget_failing))) = (before ++ [q])%list /\
    (scripted_create (client (self widget_failing)) s q =
       (s', Raise (OtherError "RateLimitError")) \/
     (OtherError "RateLimitError" = IndexError /\
      exists resp,
        scripted_create (client (self widget_failing)) s q = (s', Return resp) /\
        choices resp = [])).
Proof.
  assert (Hr : fst (run scripted_create widget_failing) =
               Raise (OtherError "RateLimitError")) by (vm_compute; reflexivity).
  split; [exact Hr|].
  exact (run_raises_only_what_the_service_caused scripted_create widget_failing
           (OtherError "RateLimitError") Hr).
Defined.

(** The run for Widget X leaves the attributes of its instance. *)
Lemma widget_run_keeps_attributes :
  client (self (snd (run scripted_create widget_new))) = client (self widget_new) /\
  model (self (snd (run scripted_create widget_new))) = model (self widget_new) /\
  product_name (self (snd (run scripted_create widget_new))) =
    product_name (self widget_new).
Proof.
  exact (proj2 (phases_and_run_change_only_outputs scripted_create) widget_new).
Defined.

(** The requests of the run for Widget X name the configured model. *)
Lemma widget_run_names_the_model :
  validate_setup widget_config = true /\
  exists sent,
    calls (snd (construct_and_run scripted_create widget_config (Some "Widget X")
                  widget_world)) =
      (calls widget_world ++ sent)%list /\
    Forall (fun q => Request.model q = OPENAI_MODEL widget_config) sent.
Proof.
  split; [reflexivity|].
  exact (proj2 (every_request_names_the_model scripted_create widget_config)
           (Some "Widget X") widget_world eq_refl).
Defined.


(** The complete run for Widget X. *)
Lemma widget_run_transcript :
  validate_setup widget_config = true /\
  fst (fst (construct_and_run scripted_create widget_config (Some "Widget X")
              widget_world)) = Return tt /\
  length (stdout (snd (construct_and_run scripted_create widget_config (Some "Widget X")
                         widget_world))) = 39.
Proof.
  split; [reflexivity|].
  assert (Hs : service_returns scripted_create widget_client (service widget_world)
                 (requests "test-model" "Widget X" "R1" "R2" "R3" "R4")
                 ["R1"; "R2"; "R3"; "R4"; "R5"] []).
  { cbn. repeat (eexists; eexists; split; [reflexivity | split; [reflexivity|]]).
    reflexivity. }
  rewrite (complete_run_transcript scripted_create widget_config "Widget X" widget_world
             "R1" "R2" "R3" "R4" "R5" [] eq_refl Hs).
  split; reflexivity.
Defined.
